(* ===== verification/_CoqProject ===== *)
-Q . S2P
Prelude.v
Radical.v
Vectors.v
FlatIndex.v
Resolver.v
Reconciler.v
DateFmt.v
Ledger.v
Orchestrator.v
Endpoints.v
Concurrency.v
Enrollment.v
