(* ===== verification/Prelude.v ===== *)
(** * Verification of the classroom face-recognition attendance service

    The verified program is [src/face_recognition_service.py], a FastAPI
    service.  At startup it builds (or loads) a FAISS inner-product index
    of enrolled face embeddings.  Given a base64 image and a class
    identifier it detects faces, matches each face against the index,
    rescales the face's bounding box to the original frame and marks the
    matched student present in a PostgreSQL table, at most once per day.

    ** The program's parts and how they interact

    - Enrollment (lines 44-76): for every folder of the dataset, every
      [.jpg]/[.png] image, the highest-scoring detected face contributes
      its normalised embedding labelled with the folder name; the rows are
      stacked and added to an [IndexFlatIP].
    - Embedding index (lines 67, 74-76, 158): [index.search(q, 1)] returns
      the position and inner product of the first maximal row, or
      (-FLT_MAX, -1) when no row scores.
    - Face match resolver (lines 146, 157-161): normalises a detected
      embedding, searches with [k = 1], accepts the top row iff its score
      is strictly greater than [0.5], and reads its label.
    - Coordinate reconciler (lines 141-154): truncates the detector's box
      to integers, multiplies by [frame.shape[1] / 640] (x) or
      [frame.shape[0] / 640] (y), and truncates again.
    - Attendance ledger ([mark_attendance], lines 96-124, and
      [clear_attendance], lines 220-228): a check-then-insert on the
      [attendance] table through a fresh connection closed in [finally].
    - Administrative reads ([get_attendance], [get_students],
      [health_check], lines 188-218 and 230-233).
    - Recognition orchestrator ([recognize_faces_in_image], lines 127-179,
      and the endpoint, lines 182-186): decode, resize, detect, then per
      face reconcile, resolve and, for accepted faces, call the ledger;
      every exception becomes an HTTP 500.
    - Concurrency: [mark_attendance] is a coroutine; the asyncio event loop
      may interleave requests at every [await].

    ** Files

    - [Prelude] (this file): exceptions [exn], [result], the
      state-and-exception monad [st] (notation in [py_scope]), the
      combinators [respects] / [inv_rel] / [same_on] for invariants and
      frame conditions with the hint database [py], boolean comparisons
      on [Q], [subseq], shared list lemmas.
    - [Radical]: exact values [a / sqrt b] ([rad]), their order [rad_ltb]
      (NaN, [b <= 0], is below nothing and above nothing) and real meaning.
    - [Vectors]: embeddings as [list Q], [normalize], the inner product
      [ip] of two normalised vectors, their real meaning, and when a
      similarity is NaN.
    - [FlatIndex]: the index record, [make_index] ([np.vstack] and
      [IndexFlatIP]), the search as a generic first-maximum fold [top1]
      (Section [Top1], against a strict order given as section variables)
      with its argmax, tie-break and "no row" theorems.
    - [Resolver]: [resolve_face]; acceptance (label of a best row, score
      strictly above [0.5]) and rejection theorems, zero embeddings, and
      the only error on a well-formed index.
    - [Reconciler]: [trunc], [reconcile_coord], [reconcile_bbox]; the
      closed form, monotonicity, bounds, the full detection frame mapped
      onto the full original frame for every frame size, and the rounding
      error, stated with the box truncated before scaling.
    - [DateFmt]: the [strftime] formats; the date string parses back and
      identifies the calendar day, and date and time strings compare in
      chronological order.
    - [Ledger]: the database [World] (tables, id sequence, open
      connections, counters of round trips and clock reads),
      [mark_attendance], [clear_attendance]; the functional specification,
      connection release, the at-most-once invariant, idempotence.
    - [Orchestrator]: the interfaces [LedgerLaws] (a [Class]: the ledger
      keeps an invariant and releases the connections it opens) and
      [LedgerRows] (a call only appends to a table, one row exactly when
      it answers [True]).  Section
      [Generic] models the request for any ledger [mark] and any decoder
      and detector; its theorems (error mapping, result shape, the type of
      the response, [recognize_ledger_laws] and [recognize_rows] proved
      against the interfaces) are instantiated with [Ledger.mark_attendance]
      through the instances [mark_attendance_laws] and
      [mark_attendance_rows] (a request appends one row per name of
      [attendance_marked] and nothing else).  With [mark_attendance]: no
      rollback when a later face's database call fails
      ([recognize_partial_commit]), and within one calendar day a request
      marks each student at most once, however often the frame shows them
      ([recognize_marks_once]).
    - [Endpoints]: [get_attendance] (the join, [ORDER BY date DESC, time
      DESC] specified up to ties and implemented by an insertion sort),
      [get_students], [health_check]; read-only, connection released,
      the answer equal up to order to the join written as a nested loop
      over both tables and sorted by the [ORDER BY] keys, and, the sort
      key being transitive (string comparison through
      [String_as_OT]), any two rows of the listing in chronological
      order, latest first.
    - [Concurrency]: a coroutine as a program counter at its [await]s,
      [step_thread], the event loop as the relation [sstep] and the
      executable [run_sched]; the model agrees with [mark_attendance] when
      a coroutine runs alone ([run_thread_refines]); no connection leak
      under any interleaving, rows only appended and as many as the
      coroutines answering [True], and the double-insert race in every
      world where a student is known and not yet marked.
    - [Enrollment]: [lower], [endswith], [py_max_det_score] (Python's
      [max] with a key), [build_database], [load_index], and [startup] over
      the cache files [CacheFS]; provenance of every row, well-formedness
      of the index, exactly one row per usable photograph of a person, the
      cache round trip, and the stale cache.

    ** Modelling conventions

    - Floating-point numbers are exact rationals [Q]; float32 rounding is
      not modelled.  No theorem depends on exactness where float32
      differs: values such as a self-similarity of exactly [1] or a
      similarity of at most [1] (float32 gives [0.99999994] and
      [1.0000001] for some vectors) are not stated, and confidences are
      only compared with the threshold, as the code compares them.  A normalised quantity [a / sqrt b] is kept as the
      pair [(a, b)], with its meaning in the reals [R].
    - Code that threads state and raises is written in [st]: the final
      state survives an exception (a database write made before an
      exception stays written).
    - The environment (clock, database faults, decoders, [cv2.resize], the
      detector, the file system) is a section variable or a function
      argument: every theorem holds for every behaviour of the
      environment unless its hypotheses say otherwise.  [db_fails n] says
      whether the [n]-th round trip raises; [clock n] is the [n]-th
      [datetime.now()].
    - SQL queries return rows in table order (the code has no [ORDER BY];
      any order is possible, the model fixes one).

    ** Bounds and fuel

    Every definition is structurally recursive except the coroutine runner
    [run_thread], which takes fuel: [mark_attendance] has at most five
    [await]s, so five resumptions finish it ([run_thread_refines] proves
    that they do on every path).  The race is exhibited on the ten
    resumptions of [alternate], which finish both coroutines.  The
    four-digit year of [DateFmt] covers the years 1000-9999.

    ** Not modelled

    The FastAPI/CORS/uvicorn set-up and the model initialisation (library
    configuration), the prints, and the pixels: image decoding, resizing
    and the detector are parameters.  Pydantic's validation of the request
    body (a 422 before the handler runs) is the library's; the three
    models themselves are records ([ImageData], [RecognitionResult],
    [AttendanceRecord], the last used by no endpoint).  [conn.close()]
    is modelled as never raising, [cv2.imdecode] and the detector as
    total functions (an exception they raise would be mapped to a 500 as
    every other), and database round trips as returning (a hung
    connection is not modelled).
    SQL's order among rows with equal [ORDER BY] keys is left open by
    [order_by_desc]; the insertion sort is one admissible order. *)

From Stdlib Require Import List String ZArith QArith Lia Bool.
From Stdlib Require Import RelationClasses.
From Stdlib Require Lqa.
Import ListNotations.

(** ** Python exceptions raised by the modelled code *)

(** [HTTPException] is FastAPI's; [DBError] stands for every exception
    asyncpg raises (connection refused, query failure); [IndexError] is a
    list index out of range; [AssertionError] is the dimension check of
    FAISS's Python wrapper; [ValueError] is numpy's ([np.vstack] of an
    empty or ragged list); [DecodeError] is [binascii.Error] from
    [base64.b64decode]. *)
Inductive exn : Type :=
| HTTPException (status_code : Z) (detail : string)
| DBError (msg : string)
| IndexError
| AssertionError
| ValueError
| DecodeError.

Inductive result (A : Type) : Type :=
| Ok (a : A)
| Err (e : exn).
Arguments Ok {A} a.
Arguments Err {A} e.

(** How many [True]s a boolean answer reports: one for [Ok True]. *)
Definition reported (r : result bool) : nat :=
  match r with Ok true => 1 | _ => 0 end.

Definition result_map {A B} (f : A -> B) (r : result A) : result B :=
  match r with Ok a => Ok (f a) | Err e => Err e end.

(** ** The state-and-exception monad *)

Definition st (S A : Type) : Type := S -> result A * S.

Section Monad.
Context {S : Type}.

Definition ret {A} (a : A) : st S A := fun s => (Ok a, s).

Definition bind {A B} (m : st S A) (k : A -> st S B) : st S B :=
  fun s => match m s with
           | (Ok a, s') => k a s'
           | (Err e, s') => (Err e, s')
           end.

Definition raise {A} (e : exn) : st S A := fun s => (Err e, s).

Definition lift {A} (r : result A) : st S A := fun s => (r, s).

Definition get : st S S := fun s => (Ok s, s).

Definition modify (f : S -> S) : st S unit := fun s => (Ok tt, f s).

(** [try: body finally: fin]: [fin] runs on every outcome of [body]; an
    exception of [fin] replaces the outcome of [body]. *)
Definition try_finally {A} (body : st S A) (fin : st S unit) : st S A :=
  fun s => let (r, s1) := body s in
           match fin s1 with
           | (Ok _, s2) => (r, s2)
           | (Err e, s2) => (Err e, s2)
           end.

(** [try: body except Exception as e: handler e]. *)
Definition try_except {A} (body : st S A) (handler : exn -> st S A) : st S A :=
  fun s => match body s with
           | (Ok a, s1) => (Ok a, s1)
           | (Err e, s1) => handler e s1
           end.
End Monad.

Declare Scope py_scope.
Delimit Scope py_scope with py.
Notation "x <- m ;; k" := (bind m (fun x => k))
  (at level 61, m at next level, right associativity) : py_scope.
Notation "m ;; k" := (bind m (fun _ => k))
  (at level 61, right associativity) : py_scope.

(** ** Relations that every step of a computation respects

    [respects R m]: whatever [m] does, its final state is related to its
    initial one by [R].  Invariants are the case [R s s' := P s -> P s'];
    frame conditions ("the open connections are unchanged") are the case
    of an equality on a projection. *)

Definition respects {S A} (R : S -> S -> Prop) (m : st S A) : Prop :=
  forall s, R s (snd (m s)).

Create HintDb py.
Create Rewrite HintDb py_rw.

Section Respects.
Context {S : Type} (R : S -> S -> Prop) `{PreOrder S R}.

Lemma respects_ret {A} (a : A) : respects R (ret a).
Proof. intros s. simpl. reflexivity. Qed.

Lemma respects_raise {A} (e : exn) : respects R (@raise S A e).
Proof. intros s. simpl. reflexivity. Qed.

Lemma respects_lift {A} (r : result A) : respects R (@lift S A r).
Proof. intros s. simpl. reflexivity. Qed.

Lemma respects_get : respects R get.
Proof. intros s. simpl. reflexivity. Qed.

Lemma respects_bind {A B} (m : st S A) (k : A -> st S B) :
  respects R m -> (forall a, respects R (k a)) -> respects R (bind m k).
Proof.
  intros Hm Hk s. unfold bind. specialize (Hm s).
  destruct (m s) as [[a|e] s']; simpl in *; [| exact Hm].
  etransitivity; [exact Hm | apply Hk].
Qed.

Lemma respects_try_finally {A} (body : st S A) fin :
  respects R body -> respects R fin -> respects R (try_finally body fin).
Proof.
  intros Hb Hf s. unfold try_finally. specialize (Hb s).
  destruct (body s) as [r s1]. specialize (Hf s1).
  destruct (fin s1) as [[]]; simpl in *; etransitivity; eauto.
Qed.

Lemma respects_try_except {A} (body : st S A) h :
  respects R body -> (forall e, respects R (h e)) ->
  respects R (try_except body h).
Proof.
  intros Hb Hh s. unfold try_except. specialize (Hb s).
  destruct (body s) as [[a|e] s1]; simpl in *; [exact Hb |].
  etransitivity; [exact Hb | apply Hh].
Qed.

Lemma respects_if {A} (b : bool) (m1 m2 : st S A) :
  respects R m1 -> respects R m2 -> respects R (if b then m1 else m2).
Proof. destruct b; auto. Qed.
End Respects.

#[export] Hint Resolve respects_ret respects_raise respects_lift respects_get
  respects_bind respects_try_finally respects_try_except respects_if : py.

(** The invariant form of [respects]. *)
Definition inv_rel {S} (P : S -> Prop) : S -> S -> Prop := fun s s' => P s -> P s'.

#[export] Instance inv_rel_preorder {S} (P : S -> Prop) : PreOrder (inv_rel P).
Proof. split; unfold inv_rel; red; auto. Qed.

(** The frame form: a projection of the state is unchanged. *)
Definition same_on {S T} (f : S -> T) : S -> S -> Prop := fun s s' => f s' = f s.

#[export] Instance same_on_preorder {S T} (f : S -> T) : PreOrder (same_on f).
Proof. split; unfold same_on; red; congruence. Qed.

(** ** Running the monad *)

(** Unfold the monad's combinators and reduce. *)
Ltac run_st :=
  unfold bind, ret, raise, lift, get, modify, try_finally, try_except in *;
  cbn beta iota zeta in *.

(** Case on the innermost [match] or [if] scrutinee of the goal. *)
Ltac case_match_goal :=
  match goal with
  | |- context [match ?x with _ => _ end] =>
      let E := fresh "E" in destruct x eqn:E
  end.

(** ** Rational arithmetic *)

(** Linear and non-linear arithmetic on [Q] (the unqualified [lra] and
    [nra] of [Lra] work on [R]). *)
Ltac qlra := Lqa.lra.
Ltac qnra := Lqa.nra.

Lemma Qsq_nonneg (a : Q) : (0 <= a * a)%Q.
Proof. destruct a as [n d]. unfold Qle. simpl. nia. Qed.


Definition Qltb (x y : Q) : bool := negb (Qle_bool y x).
Definition Qeqb (x y : Q) : bool := Qeq_bool x y.

Lemma Qltb_spec (x y : Q) : reflect (x < y)%Q (Qltb x y).
Proof.
  unfold Qltb. destruct (Qle_bool y x) eqn:E; constructor.
  - apply Qle_bool_iff in E. intro. apply (Qlt_not_le x y); auto.
  - apply Qnot_le_lt. intro Hle. apply Qle_bool_iff in Hle. congruence.
Qed.

Lemma Qltb_iff (x y : Q) : Qltb x y = true <-> (x < y)%Q.
Proof. destruct (Qltb_spec x y); split; congruence || tauto. Qed.

Lemma Qltb_false_iff (x y : Q) : Qltb x y = false <-> (y <= x)%Q.
Proof.
  destruct (Qltb_spec x y) as [H|H]; split; intros H'; try congruence.
  - exfalso. apply (Qlt_not_le x y); auto.
  - apply Qnot_lt_le; auto.
Qed.

Lemma Qeqb_iff (x y : Q) : Qeqb x y = true <-> (x == y)%Q.
Proof. apply Qeq_bool_iff. Qed.

#[export] Hint Rewrite Qltb_iff Qltb_false_iff Qeqb_iff : py_rw.

(** ** Lists *)

Lemma nth_error_map_some {A B} (f : A -> B) (l : list A) (n : nat) (b : B) :
  nth_error (map f l) n = Some b -> exists a, nth_error l n = Some a /\ b = f a.
Proof.
  rewrite nth_error_map. destruct (nth_error l n); simpl; intros H; inversion H; eauto.
Qed.

Lemma nth_error_lt_length {A} (l : list A) (n : nat) :
  (n < List.length l)%nat -> exists a, nth_error l n = Some a.
Proof.
  intros H. destruct (nth_error l n) eqn:E; eauto.
  apply nth_error_None in E. lia.
Qed.

(** A list obtained from another by deleting elements, order kept. *)
Inductive subseq {A : Type} : list A -> list A -> Prop :=
| subseq_nil : subseq [] []
| subseq_skip x l1 l2 : subseq l1 l2 -> subseq l1 (x :: l2)
| subseq_take x l1 l2 : subseq l1 l2 -> subseq (x :: l1) (x :: l2).

#[export] Hint Constructors subseq : py.

Lemma subseq_snoc_skip {A} (l1 l2 : list A) x : subseq l1 l2 -> subseq l1 (l2 ++ [x]).
Proof.
  induction 1; simpl; auto with py.
Qed.

Lemma subseq_snoc_take {A} (l1 l2 : list A) x : subseq l1 l2 -> subseq (l1 ++ [x]) (l2 ++ [x]).
Proof. induction 1; simpl; auto with py. Qed.

#[export] Hint Resolve subseq_snoc_skip subseq_snoc_take : py.
