(* ===== verification/Radical.v ===== *)
(** * Exact values of normalised quantities

    The service divides every embedding by its Euclidean norm
    ([emb / np.linalg.norm(emb)], lines 64 and 157 of
    [src/face_recognition_service.py]) and compares inner products of such
    vectors with [>] (line 160, and inside FAISS).  Every such number has
    the form [a / sqrt b] with [a], [b] rational, so it is kept exactly as
    the pair [Rad a b].  When [b <= 0] the pair stands for NaN, the float
    that numpy produces when it divides by a zero norm.

    [rad_ltb] decides the strict order of the represented reals with
    rational arithmetic only (so it computes with [vm_compute]), and
    [rad_ltb_spec] proves that it agrees with [<] on [R] through the real
    meaning [rad_val]; NaN is below and above nothing, like IEEE [<]. *)

From Stdlib Require Import QArith Qreals Reals Lra Lia Bool.
From S2P Require Import Prelude.

Local Open Scope Q_scope.

Record rad : Type := Rad { rnum : Q; rden2 : Q }.

(** Not NaN. *)
Definition is_num (x : rad) : bool := Qltb 0 (rden2 x).

(** A rational constant such as the threshold [0.5]. *)
Definition of_Q (q : Q) : rad := Rad q 1.

(** [a / sqrt A < b / sqrt B], by the signs of [a] and [b] and the
    comparison of the squares [a*a*B] and [b*b*A]. *)
Definition rad_ltb (x y : rad) : bool :=
  is_num x && is_num y &&
  (let a := rnum x in let b := rnum y in
   let l := a * a * rden2 y in let r := b * b * rden2 x in
   if Qltb a 0 then (if Qltb b 0 then Qltb r l else true)
   else (if Qltb b 0 then false else Qltb l r)).

(** Python's [x > y]. *)
Definition rad_gtb (x y : rad) : bool := rad_ltb y x.

(** The real number a pair stands for. *)
Definition rad_val (x : rad) : R := (Q2R (rnum x) / sqrt (Q2R (rden2 x)))%R.

(** ** Rationals and reals *)

Lemma Q2R_0 : Q2R 0 = 0%R.
Proof. unfold Q2R. simpl. lra. Qed.

Lemma Q2R_1 : Q2R 1 = 1%R.
Proof. unfold Q2R. simpl. lra. Qed.

Lemma Qlt_R_iff (x y : Q) : x < y <-> (Q2R x < Q2R y)%R.
Proof. split; [apply Qlt_Rlt | apply Rlt_Qlt]. Qed.

Lemma Qle_R_iff (x y : Q) : x <= y <-> (Q2R x <= Q2R y)%R.
Proof. split; [apply Qle_Rle | apply Rle_Qle]. Qed.

Lemma is_num_R x : is_num x = true -> (0 < Q2R (rden2 x))%R.
Proof. unfold is_num. rewrite Qltb_iff, Qlt_R_iff, Q2R_0. auto. Qed.

Lemma is_num_of_Q q : is_num (of_Q q) = true.
Proof. reflexivity. Qed.

#[export] Hint Resolve is_num_of_Q : py.

Lemma Rdiv_lt_cross (a b p q : R) :
  (0 < p)%R -> (0 < q)%R -> (a / p < b / q <-> a * q < b * p)%R.
Proof.
  intros Hp Hq.
  assert (E1 : (a / p * (p * q) = a * q)%R) by (field; lra).
  assert (E2 : (b / q * (p * q) = b * p)%R) by (field; lra).
  split; intros H.
  - apply (Rmult_lt_compat_r (p * q)) in H; [|nra]. rewrite E1, E2 in H. exact H.
  - apply (Rmult_lt_reg_r (p * q)); [nra|]. rewrite E1, E2. exact H.
Qed.

Lemma sq_lt_neg (u v : R) : (u < 0 -> v < 0 -> (v * v < u * u <-> u < v))%R.
Proof. intros Hu Hv; split; intros H; nra. Qed.

Lemma sq_lt_nonneg (u v : R) : (0 <= u -> 0 <= v -> (u * u < v * v <-> u < v))%R.
Proof. intros Hu Hv; split; intros H; nra. Qed.

(** ** [rad_ltb] decides the order of the reals *)

Lemma rad_ltb_spec x y :
  is_num x = true -> is_num y = true ->
  rad_ltb x y = true <-> (rad_val x < rad_val y)%R.
Proof.
  intros Hx Hy. unfold rad_ltb, rad_val. rewrite Hx, Hy. cbn [andb].
  pose proof (is_num_R x Hx) as HA. pose proof (is_num_R y Hy) as HB.
  destruct x as [a A], y as [b B]; cbn [rnum rden2] in *.
  pose proof (sqrt_lt_R0 _ HA) as sA. pose proof (sqrt_lt_R0 _ HB) as sB.
  pose proof (sqrt_sqrt _ (Rlt_le _ _ HA)) as eA.
  pose proof (sqrt_sqrt _ (Rlt_le _ _ HB)) as eB.
  rewrite Rdiv_lt_cross by assumption.
  set (sa := sqrt (Q2R A)) in *. set (sb := sqrt (Q2R B)) in *.
  assert (Hl : (Q2R a * Q2R a * Q2R B = (Q2R a * sb) * (Q2R a * sb))%R)
    by (rewrite <- eB; ring).
  assert (Hr : (Q2R b * Q2R b * Q2R A = (Q2R b * sa) * (Q2R b * sa))%R)
    by (rewrite <- eA; ring).
  destruct (Qltb_spec a 0) as [Ha|Ha]; destruct (Qltb_spec b 0) as [Hb|Hb];
    rewrite ?Qltb_iff, ?Qlt_R_iff, ?Q2R_mult, ?Hl, ?Hr in *;
    try (apply Qnot_lt_le, Qle_Rle in Ha); try (apply Qnot_lt_le, Qle_Rle in Hb);
    rewrite ?Q2R_0 in *.
  - apply sq_lt_neg; nra.
  - split; intros H; [nra | auto].
  - split; intros H; [discriminate | nra].
  - apply sq_lt_nonneg; nra.
Qed.

Lemma rad_ltb_nums x y : rad_ltb x y = true -> is_num x = true /\ is_num y = true.
Proof. unfold rad_ltb. destruct (is_num x), (is_num y); simpl; auto; discriminate. Qed.

(** NaN compares false with everything, as IEEE [<] and [>]. *)
Lemma rad_ltb_nan_l x y : is_num x = false -> rad_ltb x y = false.
Proof. unfold rad_ltb. intros ->. reflexivity. Qed.

Lemma rad_ltb_nan_r x y : is_num y = false -> rad_ltb x y = false.
Proof. unfold rad_ltb. intros ->. rewrite andb_false_r. reflexivity. Qed.

Lemma rad_ltb_irrefl x : rad_ltb x x = false.
Proof.
  destruct (rad_ltb x x) eqn:E; auto.
  destruct (rad_ltb_nums _ _ E) as [Hx _].
  apply (rad_ltb_spec x x Hx Hx) in E. lra.
Qed.

Lemma rad_ltb_trans x y z : rad_ltb x y = true -> rad_ltb y z = true -> rad_ltb x z = true.
Proof.
  intros H1 H2.
  destruct (rad_ltb_nums _ _ H1) as [Hx Hy], (rad_ltb_nums _ _ H2) as [_ Hz].
  apply rad_ltb_spec in H1, H2; auto. apply rad_ltb_spec; auto. lra.
Qed.

(** On two numbers the order is total: not below either way means equal
    real values. *)
Lemma rad_ltb_total x y :
  is_num x = true -> is_num y = true ->
  rad_ltb x y = false -> rad_ltb y x = false -> rad_val x = rad_val y.
Proof.
  intros Hx Hy H1 H2.
  assert (~ (rad_val x < rad_val y)%R) by (rewrite <- rad_ltb_spec; auto; congruence).
  assert (~ (rad_val y < rad_val x)%R) by (rewrite <- rad_ltb_spec; auto; congruence).
  lra.
Qed.

Lemma rad_ltb_false_le x y :
  is_num x = true -> is_num y = true ->
  rad_ltb x y = false -> (rad_val y <= rad_val x)%R.
Proof.
  intros Hx Hy H.
  assert (~ (rad_val x < rad_val y)%R) by (rewrite <- rad_ltb_spec; auto; congruence).
  lra.
Qed.

(** ** Values *)

Lemma rad_val_of_Q q : rad_val (of_Q q) = Q2R q.
Proof. unfold rad_val, of_Q. simpl. rewrite Q2R_1, sqrt_1. field. Qed.

