(* ===== verification/Vectors.v ===== *)
(** * Embedding vectors, normalisation and inner products

    An embedding ([face.embedding], a numpy float array) is a list of
    rationals [Vec].  Normalisation ([emb / np.linalg.norm(emb)], lines 64
    and 157) yields the real vector [e / sqrt (e . e)]; it is represented
    exactly by [nvec]: the raw vector together with its squared norm.  The
    inner product FAISS computes between two normalised vectors is then the
    exact [rad] value [dot e f / sqrt (|e|^2 |f|^2)] ([ip]).

    [normalize_val] and [ip_val] prove that these representations mean
    what numpy and FAISS compute on reals; [ip_normalize_num] and
    [ip_normalize_zero_l] say when the similarity is a number and when it
    is NaN.  Values that depend on exact arithmetic (the similarity of a
    vector with itself is exactly [1], every similarity is in [[-1, 1]])
    are not stated: in float32 they fail by one unit in the last place. *)

From Stdlib Require Import List QArith Qreals Reals Lra Lia Bool.
From S2P Require Import Prelude Radical.
Import ListNotations.

Local Open Scope Q_scope.

Definition Vec := list Q.

Fixpoint dot (u v : Vec) : Q :=
  match u, v with
  | a :: u', b :: v' => a * b + dot u' v'
  | _, _ => 0
  end.

Definition sqnorm (u : Vec) : Q := dot u u.

(** The real vector [nraw / sqrt nsq]. *)
Record nvec : Type := NVec { nraw : Vec; nsq : Q }.

(** [emb / np.linalg.norm(emb)]. *)
Definition normalize (e : Vec) : nvec := NVec e (sqnorm e).

(** The inner product of two normalised vectors. *)
Definition ip (q r : nvec) : rad := Rad (dot (nraw q) (nraw r)) (nsq q * nsq r).

Definition dim (v : nvec) : nat := List.length (nraw v).

(** ** The real meaning *)

Fixpoint dotR (u v : list R) : R :=
  match u, v with
  | a :: u', b :: v' => (a * b + dotR u' v')%R
  | _, _ => 0%R
  end.

(** [np.linalg.norm]. *)
Definition normR (u : list R) : R := sqrt (dotR u u).

Definition nvec_val (v : nvec) : list R :=
  map (fun x => (Q2R x / sqrt (Q2R (nsq v)))%R) (nraw v).

Lemma dotR_Q2R (u v : Vec) : dotR (map Q2R u) (map Q2R v) = Q2R (dot u v).
Proof.
  revert v; induction u as [|a u IH]; intros [|b v]; simpl; rewrite ?Q2R_0; auto.
  rewrite IH, Q2R_plus, Q2R_mult. reflexivity.
Qed.

Lemma dotR_scale (u v : list R) (p q : R) :
  p <> 0%R -> q <> 0%R ->
  dotR (map (fun x => (x / p)%R) u) (map (fun x => (x / q)%R) v) = (dotR u v / (p * q))%R.
Proof.
  intros Hp Hq. revert v; induction u as [|a u IH]; intros [|b v]; simpl;
    try (field; auto).
  rewrite IH. field. auto.
Qed.

Lemma sqnorm_nonneg (u : Vec) : 0 <= sqnorm u.
Proof.
  unfold sqnorm. induction u as [|a u IH]; simpl; [apply Qle_refl|].
  pose proof (Qsq_nonneg a). qlra.
Qed.

(** [normalize] is numpy's division by the norm. *)
Lemma normalize_val (e : Vec) :
  nvec_val (normalize e) = map (fun x => (x / normR (map Q2R e))%R) (map Q2R e).
Proof.
  unfold nvec_val, normalize, normR, sqnorm. simpl.
  rewrite map_map, dotR_Q2R. reflexivity.
Qed.

(** [ip] is the inner product of the real normalised vectors. *)
Lemma ip_val (q r : nvec) :
  0 < nsq q -> 0 < nsq r ->
  rad_val (ip q r) = dotR (nvec_val q) (nvec_val r).
Proof.
  intros Hq Hr. apply Qlt_Rlt in Hq, Hr. rewrite Q2R_0 in Hq, Hr.
  unfold rad_val, ip, nvec_val. simpl.
  rewrite <- (map_map Q2R (fun x => (x / sqrt (Q2R (nsq q)))%R)).
  rewrite <- (map_map Q2R (fun x => (x / sqrt (Q2R (nsq r)))%R)).
  pose proof (sqrt_lt_R0 _ Hq). pose proof (sqrt_lt_R0 _ Hr).
  rewrite dotR_scale, dotR_Q2R, Q2R_mult, sqrt_mult; lra.
Qed.

Lemma ip_normalize_num (e f : Vec) :
  0 < sqnorm e -> 0 < sqnorm f -> is_num (ip (normalize e) (normalize f)) = true.
Proof. intros He Hf. unfold is_num, ip. simpl. apply Qltb_iff. qnra. Qed.

Lemma ip_normalize_zero_l (e : nvec) (r : nvec) :
  nsq e == 0 -> is_num (ip e r) = false.
Proof.
  intros H. unfold is_num, ip. simpl. apply Qltb_false_iff. rewrite H. qlra.
Qed.
