(* ===== verification/FlatIndex.v ===== *)
(** * The FAISS flat inner-product index

    Lines 73-76 of [src/face_recognition_service.py] build
    [faiss.IndexFlatIP(d)] over [embeddings_array]; line 158 queries it with
    [index.search(q, 1)].  A flat index is exhaustive: the search scores the
    query against every stored row in order and keeps the first row whose
    score is strictly greater than the best so far, starting from FAISS's
    neutral value [-FLT_MAX] with label [-1].  NaN scores never replace
    anything.  This file models that search (FAISS is a library; its
    behaviour is taken from the spec, section 4.1, and FAISS's [k = 1]
    result handler) in two layers:

    - Section [Top1]: the fold over any score type with a strict order
      [gtb] and a test [beats_neutral] (not NaN), and its invariant
      [top1_inv]; the theorems say that the result is a maximum, that it
      is the first maximum, and that [None] means that no score beats the
      neutral value.
    - The index proper: [FaceIndex] (dimension, rows, labels), its
      construction [make_index] from the stacked rows ([np.vstack] and
      [IndexFlatIP(d).add]), and [search], which raises FAISS's
      [AssertionError] on a query of another dimension. *)

From Stdlib Require Import List String QArith Qreals Reals Lra Lia Bool.
From S2P Require Import Prelude Radical Vectors.
Import ListNotations.

Local Open Scope nat_scope.

(** ** The top-1 fold *)

Section Top1.
Context {Score : Type}.
Variable gtb : Score -> Score -> bool.
Variable beats_neutral : Score -> bool.

(** The result handler's update rule: [dis > min_dis]. *)
Definition beats (s : Score) (best : option (nat * Score)) : bool :=
  match best with
  | None => beats_neutral s
  | Some (_, b) => gtb s b
  end.

Fixpoint top1_from (j : nat) (best : option (nat * Score)) (l : list Score)
  : option (nat * Score) :=
  match l with
  | [] => best
  | s :: l' => top1_from (S j) (if beats s best then Some (j, s) else best) l'
  end.

Definition top1 (l : list Score) : option (nat * Score) := top1_from 0 None l.

(** What the accumulator knows about the prefix [p] already scanned. *)
Definition top1_inv (p : list Score) (best : option (nat * Score)) : Prop :=
  match best with
  | None => forall t, In t p -> beats_neutral t = false
  | Some (i, s) =>
      nth_error p i = Some s /\ beats_neutral s = true /\
      (forall k t, nth_error p k = Some t -> gtb t s = false) /\
      (forall k t, k < i -> nth_error p k = Some t ->
                   beats_neutral t = true -> gtb s t = true)
  end.

Hypothesis gtb_irrefl : forall a, gtb a a = false.
Hypothesis gtb_trans : forall a b c, gtb a b = true -> gtb b c = true -> gtb a c = true.
Hypothesis gtb_neg_trans : forall a b c,
  gtb a b = true -> gtb c b = false -> beats_neutral c = true -> gtb a c = true.
Hypothesis gtb_nums : forall a b,
  gtb a b = true -> beats_neutral a = true /\ beats_neutral b = true.

Lemma nth_error_snoc_inv (p : list Score) s k t :
  nth_error (p ++ [s]) k = Some t ->
  (k < List.length p /\ nth_error p k = Some t) \/ (k = List.length p /\ t = s).
Proof.
  intros H. destruct (Nat.lt_ge_cases k (List.length p)) as [Hk|Hk].
  - left. rewrite nth_error_app1 in H; auto.
  - right. rewrite nth_error_app2 in H by auto.
    destruct (k - List.length p) as [|n] eqn:E; simpl in H.
    + split; [lia | congruence].
    + destruct n; discriminate.
Qed.

Lemma top1_inv_step p best s :
  top1_inv p best ->
  top1_inv (p ++ [s]) (if beats s best then Some (List.length p, s) else best).
Proof.
  destruct best as [[i b]|]; simpl.
  - intros (Hi & Hb & Hmax & Hfirst).
    destruct (gtb s b) eqn:Hsb; simpl.
    + destruct (gtb_nums _ _ Hsb) as [Hs _].
      split; [rewrite nth_error_app2, Nat.sub_diag by lia; reflexivity |].
      split; [exact Hs |]. split.
      * intros k t Hk. apply nth_error_snoc_inv in Hk as [[_ Hk]|[_ ->]]; auto.
        destruct (gtb t s) eqn:Hts; auto.
        specialize (Hmax k t Hk). rewrite (gtb_trans _ _ _ Hts Hsb) in Hmax. discriminate.
      * intros k t Hk Ht Hnt. apply nth_error_snoc_inv in Ht as [[_ Ht]|[Hk' _]]; [|lia].
        eapply gtb_neg_trans; eauto.
    + assert (Hlt : i < List.length p) by (apply nth_error_Some; congruence).
      split; [rewrite nth_error_app1; auto |]. split; [exact Hb |]. split.
      * intros k t Hk. apply nth_error_snoc_inv in Hk as [[_ Hk]|[_ ->]]; eauto.
      * intros k t Hk Ht. apply nth_error_snoc_inv in Ht as [[_ Ht]|[Hk' _]]; [eauto | lia].
  - intros Hnone. destruct (beats_neutral s) eqn:Hs; simpl.
    + split; [rewrite nth_error_app2, Nat.sub_diag by lia; reflexivity |].
      split; [exact Hs |]. split.
      * intros k t Hk. apply nth_error_snoc_inv in Hk as [[_ Hk]|[_ ->]]; auto.
        destruct (gtb t s) eqn:Hts; auto.
        apply nth_error_In in Hk. apply Hnone in Hk.
        destruct (gtb_nums _ _ Hts). congruence.
      * intros k t Hk Ht Hnt. apply nth_error_snoc_inv in Ht as [[_ Ht]|[Hk' _]]; [|lia].
        apply nth_error_In, Hnone in Ht. congruence.
    + intros t Ht. apply in_app_or in Ht as [Ht|[<-|[]]]; auto.
Qed.

Lemma top1_from_inv p best l :
  top1_inv p best -> top1_inv (p ++ l) (top1_from (List.length p) best l).
Proof.
  revert p best; induction l as [|s l IH]; intros p best H; simpl.
  - rewrite app_nil_r. exact H.
  - replace (p ++ s :: l) with ((p ++ [s]) ++ l) by (rewrite <- app_assoc; reflexivity).
    replace (S (List.length p)) with (List.length (p ++ [s]))
      by (rewrite length_app; simpl; lia).
    apply IH, top1_inv_step, H.
Qed.

Lemma top1_spec l : top1_inv l (top1 l).
Proof. apply (top1_from_inv [] None l). simpl. tauto. Qed.

(** The row returned is in the list, at the position returned. *)
Lemma top1_found l i s : top1 l = Some (i, s) -> nth_error l i = Some s.
Proof. intros H. pose proof (top1_spec l) as Hs. rewrite H in Hs. apply Hs. Qed.

Lemma top1_found_num l i s : top1 l = Some (i, s) -> beats_neutral s = true.
Proof. intros H. pose proof (top1_spec l) as Hs. rewrite H in Hs. apply Hs. Qed.

(** No row scores strictly better than the one returned. *)
Lemma top1_max l i s : top1 l = Some (i, s) ->
  forall k t, nth_error l k = Some t -> gtb t s = false.
Proof. intros H. pose proof (top1_spec l) as Hs. rewrite H in Hs. apply Hs. Qed.

(** Ties go to the lowest position: every scoring row before it is
    strictly worse. *)
Lemma top1_first l i s : top1 l = Some (i, s) ->
  forall k t, k < i -> nth_error l k = Some t -> beats_neutral t = true -> gtb s t = true.
Proof. intros H. pose proof (top1_spec l) as Hs. rewrite H in Hs. apply Hs. Qed.

(** The search finds nothing exactly when no score beats the neutral
    value. *)
Lemma top1_none l : top1 l = None <-> (forall t, In t l -> beats_neutral t = false).
Proof.
  split.
  - intros H. pose proof (top1_spec l) as Hs. rewrite H in Hs. exact Hs.
  - intros Hall. destruct (top1 l) as [[i s]|] eqn:E; auto.
    apply top1_found in E as Hf. apply top1_found_num in E.
    apply nth_error_In, Hall in Hf. congruence.
Qed.
End Top1.

(** ** Scores of normalised vectors *)

Lemma rad_gtb_neg_trans a b c :
  rad_gtb a b = true -> rad_gtb c b = false -> is_num c = true -> rad_gtb a c = true.
Proof.
  unfold rad_gtb. intros H1 H2 Hc.
  destruct (rad_ltb_nums _ _ H1) as [Hb Ha].
  apply rad_ltb_spec in H1; auto. apply rad_ltb_false_le in H2; auto.
  apply rad_ltb_spec; auto. lra.
Qed.

Lemma rad_gtb_nums a b : rad_gtb a b = true -> is_num a = true /\ is_num b = true.
Proof. unfold rad_gtb. intros H. apply rad_ltb_nums in H. tauto. Qed.

Lemma rad_gtb_trans a b c : rad_gtb a b = true -> rad_gtb b c = true -> rad_gtb a c = true.
Proof. unfold rad_gtb. intros. eapply rad_ltb_trans; eauto. Qed.

Lemma rad_gtb_irrefl a : rad_gtb a a = false.
Proof. apply rad_ltb_irrefl. Qed.

#[export] Hint Resolve rad_gtb_neg_trans rad_gtb_nums rad_gtb_trans rad_gtb_irrefl : py.

(** ** The index *)

Record FaceIndex : Type := {
  fi_dim : nat;                (** [d = embeddings_array.shape[1]] *)
  fi_vectors : list nvec;      (** the rows added to [IndexFlatIP(d)] *)
  fi_labels : list string      (** [labels], parallel to the rows *)
}.

(** [np.vstack(embeddings)]: a [ValueError] on an empty or ragged list;
    otherwise the common row length. *)
Definition vstack (rows : list nvec) : result nat :=
  match rows with
  | [] => Err ValueError
  | r :: _ => if forallb (fun x => Nat.eqb (dim x) (dim r)) rows then Ok (dim r)
              else Err ValueError
  end.

(** Lines 67 and 74-76: stack, read [d], create the index and add the rows. *)
Definition make_index (rows : list nvec) (labels : list string) : result FaceIndex :=
  match vstack rows with
  | Ok d => Ok {| fi_dim := d; fi_vectors := rows; fi_labels := labels |}
  | Err e => Err e
  end.

Definition scores (idx : FaceIndex) (q : nvec) : list rad := map (ip q) (fi_vectors idx).

(** [D, I = index.search(q, 1)]: [None] stands for [(-FLT_MAX, -1)]. *)
Definition search (idx : FaceIndex) (q : nvec) : result (option (nat * rad)) :=
  if Nat.eqb (dim q) (fi_dim idx) then Ok (top1 rad_gtb is_num (scores idx q))
  else Err AssertionError.

(** A well-formed index: rows of the index's dimension, unit-normalised,
    with one label per row. *)
Definition index_wf (idx : FaceIndex) : Prop :=
  Forall (fun r => dim r = fi_dim idx /\ (0 < nsq r)%Q /\ (nsq r == sqnorm (nraw r))%Q)
         (fi_vectors idx) /\
  List.length (fi_labels idx) = List.length (fi_vectors idx).

(** ** The search *)

Section Search.
Variable idx : FaceIndex.
Variable q : nvec.
Hypothesis Hdim : dim q = fi_dim idx.

Lemma search_ok : search idx q = Ok (top1 rad_gtb is_num (scores idx q)).
Proof. unfold search. rewrite Hdim, Nat.eqb_refl. reflexivity. Qed.

Lemma scores_nth j s :
  nth_error (scores idx q) j = Some s ->
  exists r, nth_error (fi_vectors idx) j = Some r /\ s = ip q r.
Proof. unfold scores. apply nth_error_map_some. Qed.

Lemma scores_nth_vec j r :
  nth_error (fi_vectors idx) j = Some r -> nth_error (scores idx q) j = Some (ip q r).
Proof. intros H. unfold scores. rewrite nth_error_map, H. reflexivity. Qed.
End Search.

(** The fold's theorems at the scores of the index. *)
Definition rad_top1_found := top1_found rad_gtb is_num rad_gtb_irrefl rad_gtb_trans
  rad_gtb_neg_trans rad_gtb_nums.
Definition rad_top1_found_num := top1_found_num rad_gtb is_num rad_gtb_irrefl rad_gtb_trans
  rad_gtb_neg_trans rad_gtb_nums.
Definition rad_top1_max := top1_max rad_gtb is_num rad_gtb_irrefl rad_gtb_trans
  rad_gtb_neg_trans rad_gtb_nums.
Definition rad_top1_first := top1_first rad_gtb is_num rad_gtb_irrefl rad_gtb_trans
  rad_gtb_neg_trans rad_gtb_nums.
Definition rad_top1_none := top1_none rad_gtb is_num rad_gtb_irrefl rad_gtb_trans
  rad_gtb_neg_trans rad_gtb_nums.

(** [index.search(q, 1)] returns a stored row whose inner product with
    the query is maximal among all rows, and strictly greater than that of
    every earlier row: exact search, ties resolved to the lowest position. *)
Theorem search_argmax (idx : FaceIndex) (q : nvec) (i : nat) (s : rad) :
  search idx q = Ok (Some (i, s)) ->
  exists r, nth_error (fi_vectors idx) i = Some r /\ s = ip q r /\ is_num s = true /\
    (forall j r', nth_error (fi_vectors idx) j = Some r' -> is_num (ip q r') = true ->
                  (rad_val (ip q r') <= rad_val s)%R) /\
    (forall j r', j < i -> nth_error (fi_vectors idx) j = Some r' ->
                  is_num (ip q r') = true -> (rad_val (ip q r') < rad_val s)%R).
Proof.
  unfold search. destruct (Nat.eqb_spec (dim q) (fi_dim idx)) as [Hd|]; [|discriminate].
  intros H. injection H as H.
  assert (Hs : is_num s = true) by (eapply rad_top1_found_num; eauto).
  destruct (scores_nth idx q i s) as (r & Hr & ->); [eapply rad_top1_found; eauto |].
  exists r. split; [exact Hr|]. split; [reflexivity|]. split; [exact Hs|]. split.
  - intros j r' Hj Hn. apply rad_ltb_false_le; auto.
    eapply rad_top1_max; [eauto | apply scores_nth_vec; eauto].
  - intros j r' Hlt Hj Hn. apply rad_ltb_spec; auto.
    eapply rad_top1_first; [eauto | eauto | apply scores_nth_vec; eauto | auto].
Qed.

(** the search reports no row ([(-FLT_MAX, -1)]) exactly when every
    score is NaN; with a zero query (zero-norm embedding) it always does. *)
Theorem search_none_iff (idx : FaceIndex) (q : nvec) :
  dim q = fi_dim idx ->
  search idx q = Ok None <-> (forall r, In r (fi_vectors idx) -> is_num (ip q r) = false).
Proof.
  intros Hd. rewrite search_ok by exact Hd. split.
  - intros H r Hr. injection H as H.
    apply (proj1 (rad_top1_none _) H). unfold scores. apply in_map. exact Hr.
  - intros Hall. f_equal. apply (proj2 (rad_top1_none _)).
    intros t Ht. unfold scores in Ht. apply in_map_iff in Ht as (r & <- & Hr). auto.
Qed.

Lemma search_zero_query (idx : FaceIndex) (e : Vec) :
  dim (normalize e) = fi_dim idx -> (sqnorm e == 0)%Q ->
  search idx (normalize e) = Ok None.
Proof.
  intros Hd Hz. apply search_none_iff; auto.
  intros r _. apply ip_normalize_zero_l. exact Hz.
Qed.

Lemma search_dim_mismatch (idx : FaceIndex) (q : nvec) :
  dim q <> fi_dim idx -> search idx q = Err AssertionError.
Proof. intros H. unfold search. apply Nat.eqb_neq in H. rewrite H. reflexivity. Qed.

(** Construction succeeds exactly on a non-empty list of rows of one
    dimension, and then every row has the index's dimension. *)
Lemma make_index_dims (rows : list nvec) (labels : list string) (idx : FaceIndex) :
  make_index rows labels = Ok idx ->
  rows <> [] /\ fi_vectors idx = rows /\ fi_labels idx = labels /\
  Forall (fun r => dim r = fi_dim idx) rows.
Proof.
  unfold make_index, vstack. destruct rows as [|r0 rows]; [discriminate|].
  destruct (forallb _ _) eqn:Hall; [|discriminate]. intros H. injection H as <-.
  simpl. split; [discriminate|]. split; [reflexivity|]. split; [reflexivity|].
  apply Forall_forall. intros x Hx. rewrite forallb_forall in Hall.
  apply Nat.eqb_eq, Hall, Hx.
Qed.
