(* ===== verification/Resolver.v ===== *)
(** * The face match resolver

    Lines 156-161 of [src/face_recognition_service.py], for one detected
    face:
<<
    emb = face.embedding / np.linalg.norm(face.embedding)
    D, I = index.search(np.expand_dims(emb.astype('float32'), axis=0), 1)
    if D[0][0] > threshold:
        name = labels[I[0][0]]
>>
    with [threshold = 0.5] (line 146).  [resolve_face] returns the
    accepted label and its confidence [D[0][0]], [None] for a rejected
    face, or the exception the search or the label lookup raises.

    The theorems: an accepted face has the label of a row of maximal
    similarity and a confidence strictly above [0.5]; a rejected face has
    no row scoring above [0.5]; a zero embedding is rejected (its
    normalisation is NaN); on a well-formed index only a query of the
    wrong length raises. *)

From Stdlib Require Import List String QArith Qreals Reals Lra Lia Bool.
From S2P Require Import Prelude Radical Vectors FlatIndex.
Import ListNotations.

Local Open Scope nat_scope.

(** [threshold = 0.5]. *)
Definition threshold : rad := of_Q (1 # 2).

Definition resolve_face (idx : FaceIndex) (embedding : Vec) : result (option (string * rad)) :=
  let emb := normalize embedding in
  match search idx emb with
  | Err e => Err e
  | Ok (Some (i, d)) =>
      if rad_gtb d threshold then
        match nth_error (fi_labels idx) i with
        | Some name => Ok (Some (name, d))
        | None => Err IndexError
        end
      else Ok None
  | Ok None => Ok None          (** [D[0][0] = -FLT_MAX] is not above [0.5] *)
  end.

Lemma rad_val_threshold : rad_val threshold = (1 / 2)%R.
Proof. unfold threshold. rewrite rad_val_of_Q. unfold Q2R. simpl. lra. Qed.

Lemma above_threshold_iff (d : rad) :
  is_num d = true -> rad_gtb d threshold = true <-> (1 / 2 < rad_val d)%R.
Proof.
  intros Hd. unfold rad_gtb. rewrite rad_ltb_spec, rad_val_threshold by auto with py.
  reflexivity.
Qed.

(** What an accepted face is made of: a row of the index, its label,
    and its score, which is above the threshold. *)
Lemma resolve_face_some (idx : FaceIndex) (e : Vec) (name : string) (d : rad) :
  resolve_face idx e = Ok (Some (name, d)) ->
  rad_gtb d threshold = true /\
  exists i r, nth_error (fi_vectors idx) i = Some r /\ nth_error (fi_labels idx) i = Some name /\
    d = ip (normalize e) r.
Proof.
  unfold resolve_face; cbv zeta.
  destruct (search idx (normalize e)) as [[[i s]|]|] eqn:Hs; try discriminate.
  destruct (rad_gtb s threshold) eqn:Ht; [|discriminate].
  destruct (nth_error (fi_labels idx) i) as [n|] eqn:Hl; [|discriminate].
  intros H. injection H as <- <-. split; [exact Ht|].
  destruct (search_argmax idx (normalize e) i s Hs) as (r & Hr & -> & _). eauto.
Qed.

(** C1: an accepted face carries the label of a stored row whose
    similarity with the face is maximal among all rows, and that
    similarity, reported as the confidence, is strictly above [0.5]. *)
Theorem resolve_accept (idx : FaceIndex) (e : Vec) (name : string) (d : rad) :
  resolve_face idx e = Ok (Some (name, d)) ->
  (1 / 2 < rad_val d)%R /\
  exists i r, nth_error (fi_vectors idx) i = Some r /\ nth_error (fi_labels idx) i = Some name /\
    d = ip (normalize e) r /\
    forall r', In r' (fi_vectors idx) -> is_num (ip (normalize e) r') = true ->
               (rad_val (ip (normalize e) r') <= rad_val d)%R.
Proof.
  unfold resolve_face; cbv zeta.
  destruct (search idx (normalize e)) as [[[i s]|]|] eqn:Hs; try discriminate.
  destruct (rad_gtb s threshold) eqn:Ht; [|discriminate].
  destruct (nth_error (fi_labels idx) i) as [n|] eqn:Hl; [|discriminate].
  intros H. injection H as <- <-.
  destruct (search_argmax idx (normalize e) i s Hs) as (r & Hr & -> & Hnum & Hmax & _).
  split; [apply above_threshold_iff; auto|].
  exists i, r. repeat split; auto.
  intros r' Hin Hn. apply In_nth_error in Hin as [j Hj]. eapply Hmax; eauto.
Qed.

(** C5: a rejected face has no stored row with similarity above [0.5]. *)
Theorem resolve_reject (idx : FaceIndex) (e : Vec) :
  resolve_face idx e = Ok None ->
  forall r, In r (fi_vectors idx) -> is_num (ip (normalize e) r) = true ->
  (rad_val (ip (normalize e) r) <= 1 / 2)%R.
Proof.
  unfold resolve_face; cbv zeta.
  destruct (search idx (normalize e)) as [[[i s]|]|] eqn:Hs; try discriminate.
  - destruct (rad_gtb s threshold) eqn:Ht;
      [destruct (nth_error (fi_labels idx) i); discriminate|]. intros _ r Hin Hn.
    destruct (search_argmax idx (normalize e) i s Hs) as (r0 & _ & -> & Hnum & Hmax & _).
    apply In_nth_error in Hin as [j Hj].
    pose proof (Hmax j r Hj Hn).
    assert (~ (1 / 2 < rad_val (ip (normalize e) r0))%R) by
      (rewrite <- above_threshold_iff; auto; congruence).
    lra.
  - intros _ r Hin Hn. unfold search in Hs.
    destruct (Nat.eqb (dim (normalize e)) (fi_dim idx)); [|discriminate].
    injection Hs as Hs. pose proof (proj1 (rad_top1_none _) Hs (ip (normalize e) r)) as Hf.
    rewrite Hf in Hn; [discriminate|]. unfold scores. apply in_map. exact Hin.
Qed.

(** C30: A zero embedding has a NaN normalisation: every score is NaN, the
    search reports no row, and the face is rejected. *)
Lemma resolve_zero_embedding (idx : FaceIndex) (e : Vec) :
  List.length e = fi_dim idx -> (sqnorm e == 0)%Q -> resolve_face idx e = Ok None.
Proof.
  intros Hd Hz. unfold resolve_face; cbv zeta. rewrite search_zero_query; auto.
Qed.

(** C29: On a well-formed index the resolver raises only FAISS's dimension
    assertion, and only for an embedding of the wrong length. *)
Lemma resolve_errors (idx : FaceIndex) (e : Vec) (ex : exn) :
  index_wf idx -> resolve_face idx e = Err ex ->
  ex = AssertionError /\ List.length e <> fi_dim idx.
Proof.
  intros [_ Hlen]. unfold resolve_face; cbv zeta.
  destruct (Nat.eq_dec (dim (normalize e)) (fi_dim idx)) as [Hd|Hd].
  - rewrite (search_ok idx _ Hd).
    destruct (top1 rad_gtb is_num (scores idx (normalize e))) as [[i s]|] eqn:Ht;
      [|discriminate].
    destruct (rad_gtb s threshold); [|discriminate].
    apply rad_top1_found in Ht. unfold scores in Ht.
    rewrite nth_error_map in Ht.
    destruct (nth_error (fi_vectors idx) i) eqn:Hv; [|discriminate].
    destruct (nth_error_lt_length (fi_labels idx) i) as [nm Hn];
      [rewrite Hlen; apply nth_error_Some; congruence|].
    rewrite Hn. discriminate.
  - rewrite search_dim_mismatch by exact Hd. intros H. injection H as <-. auto.
Qed.

(** ** The spec's scenarios *)

(** Identities [A] and [B] enrolled with orthogonal embeddings. *)
Definition two_orthogonal : FaceIndex :=
  {| fi_dim := 2; fi_vectors := [normalize [1; 0]%Q; normalize [0; 1]%Q];
     fi_labels := ["A"; "B"]%string |}.

(** One identity [A] in dimension 4, where the query [[1; 1; 1; 1]] has
    similarity exactly [0.5] and is rejected. *)
Definition one_in_4d : FaceIndex :=
  {| fi_dim := 4; fi_vectors := [normalize [1; 0; 0; 0]%Q]; fi_labels := ["A"]%string |}.

Lemma resolve_accept_witness :
  (1 / 2 < rad_val (ip (normalize [1; 0]%Q) (normalize [1; 0]%Q)))%R.
Proof.
  exact (proj1 (resolve_accept two_orthogonal [1; 0]%Q "A"%string _
                  ltac:(vm_compute; reflexivity))).
Defined.

Lemma resolve_reject_witness :
  (rad_val (ip (normalize [1; 1; 1; 1]%Q) (normalize [1; 0; 0; 0]%Q)) <= 1 / 2)%R.
Proof.
  apply (resolve_reject one_in_4d [1; 1; 1; 1]%Q); [vm_compute; reflexivity | | reflexivity].
  simpl. left. reflexivity.
Defined.

Lemma two_orthogonal_wf : index_wf two_orthogonal.
Proof. split; [repeat constructor | reflexivity]. Qed.

Lemma resolve_errors_witness : AssertionError = AssertionError /\ List.length [1; 0; 0]%Q <> 2%nat.
Proof.
  apply (resolve_errors two_orthogonal [1; 0; 0]%Q AssertionError two_orthogonal_wf).
  vm_compute. reflexivity.
Defined.

Lemma resolve_zero_embedding_witness : resolve_face two_orthogonal [0; 0]%Q = Ok None.
Proof. apply resolve_zero_embedding; reflexivity. Defined.
