(* ===== verification/DateFmt.v ===== *)
(** * Date and time formatting

    [mark_attendance] (lines 109 and 116 of
    [src/face_recognition_service.py]) keys attendance by
    [datetime.now().strftime("%Y-%m-%d")] and stores
    [datetime.now().strftime("%H:%M:%S")].  The "once per calendar day"
    rule therefore rests on the date string: two instants get the same
    string exactly when they fall on the same calendar day.  This file
    models the two formats for four-digit years (%Y prints the year without
    padding, which for the years 1000-9999 is four digits) and proves that
    the date string determines the day ([strftime_date_inj]) and can be
    parsed back ([parse_date_strftime]). *)

From Stdlib Require Import String Ascii ZArith NArith Lia.
From S2P Require Import Prelude.

Local Open Scope Z_scope.
Local Open Scope string_scope.

(** [datetime.datetime], the fields [strftime] reads. *)
Record DateTime : Type := {
  year : Z; month : Z; day : Z; hour : Z; minute : Z; second : Z
}.

Definition digit (n : Z) : ascii := ascii_of_N (Z.to_N (48 + n)).

(** Two zero-padded decimal digits ([%m], [%d], [%H], [%M], [%S]). *)
Definition pad2 (n : Z) : string :=
  String (digit (n / 10)) (String (digit (n mod 10)) EmptyString).

(** Four decimal digits ([%Y] for the years 1000-9999). *)
Definition pad4 (n : Z) : string :=
  String (digit (n / 1000)) (String (digit (n / 100 mod 10))
    (String (digit (n / 10 mod 10)) (String (digit (n mod 10)) EmptyString))).

Definition strftime_date (t : DateTime) : string :=
  pad4 (year t) ++ "-" ++ pad2 (month t) ++ "-" ++ pad2 (day t).

Definition strftime_time (t : DateTime) : string :=
  pad2 (hour t) ++ ":" ++ pad2 (minute t) ++ ":" ++ pad2 (second t).

(** The ranges [datetime] guarantees (the day's upper bound depends on the
    month; 31 is enough here), and a four-digit year. *)
Definition valid_date (t : DateTime) : Prop :=
  1000 <= year t <= 9999 /\ 1 <= month t <= 12 /\ 1 <= day t <= 31.

(** ** Parsing back *)

Definition undigit (c : ascii) : option Z :=
  let n := Z.of_N (N_of_ascii c) in
  if andb (Z.leb 48 n) (Z.leb n 57) then Some (n - 48) else None.

Definition parse_date (s : string) : option (Z * Z * Z) :=
  match s with
  | String y1 (String y2 (String y3 (String y4 (String "-"%char
      (String m1 (String m2 (String "-"%char (String d1 (String d2 EmptyString))))))))) =>
      match undigit y1, undigit y2, undigit y3, undigit y4,
            undigit m1, undigit m2, undigit d1, undigit d2 with
      | Some a, Some b, Some c, Some d, Some e, Some f, Some g, Some h =>
          Some (a * 1000 + b * 100 + c * 10 + d, e * 10 + f, g * 10 + h)
      | _, _, _, _, _, _, _, _ => None
      end
  | _ => None
  end.

Lemma undigit_digit (n : Z) : 0 <= n < 10 -> undigit (digit n) = Some n.
Proof.
  intros H. unfold undigit, digit. rewrite N_ascii_embedding by lia.
  rewrite Z2N.id by lia.
  replace (andb (Z.leb 48 (48 + n)) (Z.leb (48 + n) 57)) with true.
  - f_equal. lia.
  - symmetry. apply andb_true_intro. split; apply Z.leb_le; lia.
Qed.

(** Round trip: the date string of a valid date parses back to its year,
    month and day. *)
Theorem parse_date_strftime (t : DateTime) :
  valid_date t -> parse_date (strftime_date t) = Some (year t, month t, day t).
Proof.
  intros (Hy & Hm & Hd). unfold strftime_date, pad4, pad2.
  cbn [append parse_date].
  rewrite !undigit_digit by (Z.div_mod_to_equations; lia).
  f_equal. f_equal; [f_equal|]; Z.div_mod_to_equations; lia.
Qed.

(** C22: The date string identifies the calendar day. *)
Corollary strftime_date_inj (t u : DateTime) :
  valid_date t -> valid_date u ->
  strftime_date t = strftime_date u <->
  (year t = year u /\ month t = month u /\ day t = day u).
Proof.
  intros Ht Hu. split.
  - intros E. pose proof (parse_date_strftime t Ht) as Pt.
    rewrite E, parse_date_strftime in Pt by exact Hu. injection Pt. auto.
  - intros (Ey & Em & Ed). unfold strftime_date. rewrite Ey, Em, Ed. reflexivity.
Qed.

Lemma strftime_date_inj_witness :
  strftime_date {| year := 2026; month := 11; day := 9; hour := 9; minute := 30; second := 0 |} =
  strftime_date {| year := 2026; month := 11; day := 9; hour := 23; minute := 59; second := 59 |} <->
  (2026 = 2026 /\ 11 = 11 /\ 9 = 9).
Proof. apply strftime_date_inj; unfold valid_date; cbn; lia. Defined.

(** ** The order of the strings

    [get_attendance] sorts rows with [ORDER BY a.date DESC, a.time DESC]
    on these strings; the comparison of two strings of digits of the same
    length is the numeric one, so the order is chronological. *)

(** Lexicographic combination of comparisons. *)
Definition lex (c1 c2 : comparison) : comparison :=
  match c1 with Eq => c2 | c => c end.

Lemma lex_Eq_r c : lex c Eq = c.
Proof. destruct c; reflexivity. Qed.

Lemma compare_app (s1 s2 r1 r2 : string) :
  String.length s1 = String.length s2 ->
  String.compare (s1 ++ r1) (s2 ++ r2) = lex (String.compare s1 s2) (String.compare r1 r2).
Proof.
  revert s2. induction s1 as [|a s1 IH]; intros [|b s2] H; cbn in *; try discriminate; auto.
  destruct (Ascii.compare a b); auto.
Qed.

Lemma ascii_compare_digit (a b : Z) :
  0 <= a < 10 -> 0 <= b < 10 -> Ascii.compare (digit a) (digit b) = Z.compare a b.
Proof.
  intros Ha Hb. unfold Ascii.compare, digit. rewrite !N_ascii_embedding by lia.
  rewrite <- N2Z.inj_compare, !Z2N.id by lia. apply Z.add_compare_mono_l.
Qed.

(** Comparing [a * B + r] digit-wise, for remainders below [B]. *)
Lemma Z_compare_split (a a' r r' B : Z) :
  0 <= r < B -> 0 <= r' < B ->
  Z.compare (a * B + r) (a' * B + r') = lex (Z.compare a a') (Z.compare r r').
Proof.
  intros Hr Hr'. unfold lex.
  destruct (Z.compare_spec a a') as [->|Hlt|Hgt].
  - destruct (Z.compare_spec r r'); [apply Z.compare_eq_iff | apply Z.compare_lt_iff
      | apply Z.compare_gt_iff]; lia.
  - apply Z.compare_lt_iff. nia.
  - apply Z.compare_gt_iff. nia.
Qed.

Lemma pad2_compare (n n' : Z) :
  0 <= n < 100 -> 0 <= n' < 100 -> String.compare (pad2 n) (pad2 n') = Z.compare n n'.
Proof.
  intros Hn Hn'. unfold pad2. cbn [String.compare].
  rewrite !ascii_compare_digit by (Z.div_mod_to_equations; lia).
  rewrite (Z_div_mod_eq_full n 10), (Z_div_mod_eq_full n' 10) at 3.
  rewrite !(Z.mul_comm 10), Z_compare_split by (apply Z.mod_pos_bound; lia).
  unfold lex. destruct (Z.compare (n / 10) (n' / 10)); auto.
  destruct (Z.compare (n mod 10) (n' mod 10)); reflexivity.
Qed.

Lemma mod_1000_split (n : Z) : 0 <= n -> n mod 1000 = (n / 100 mod 10) * 100 + n mod 100.
Proof. intros. Z.div_mod_to_equations. lia. Qed.

Lemma mod_100_split (n : Z) : 0 <= n -> n mod 100 = (n / 10 mod 10) * 10 + n mod 10.
Proof. intros. Z.div_mod_to_equations. lia. Qed.

Lemma Z_compare_digits4 (n n' : Z) :
  0 <= n < 10000 -> 0 <= n' < 10000 ->
  Z.compare n n' =
  lex (Z.compare (n / 1000) (n' / 1000))
    (lex (Z.compare (n / 100 mod 10) (n' / 100 mod 10))
       (lex (Z.compare (n / 10 mod 10) (n' / 10 mod 10)) (Z.compare (n mod 10) (n' mod 10)))).
Proof.
  intros Hn Hn'.
  assert (B : forall m k, 0 < k -> 0 <= m mod k < k) by (intros; apply Z.mod_pos_bound; lia).
  transitivity (Z.compare (n / 1000 * 1000 + n mod 1000) (n' / 1000 * 1000 + n' mod 1000)).
  { f_equal; rewrite Z.mul_comm; apply Z_div_mod_eq_full. }
  rewrite Z_compare_split by (apply B; lia). f_equal.
  rewrite (mod_1000_split n), (mod_1000_split n') by lia.
  rewrite Z_compare_split by (apply B; lia). f_equal.
  rewrite (mod_100_split n), (mod_100_split n') by lia.
  apply Z_compare_split; apply B; lia.
Qed.

Lemma pad4_compare (n n' : Z) :
  0 <= n < 10000 -> 0 <= n' < 10000 -> String.compare (pad4 n) (pad4 n') = Z.compare n n'.
Proof.
  intros Hn Hn'. unfold pad4. cbn [String.compare].
  rewrite !ascii_compare_digit by (Z.div_mod_to_equations; lia).
  rewrite (Z_compare_digits4 n n') by lia.
  unfold lex. repeat (destruct (Z.compare _ _); try reflexivity).
Qed.

(** The ranges [datetime] guarantees for the time of day. *)
Definition valid_time (t : DateTime) : Prop :=
  0 <= hour t < 24 /\ 0 <= minute t < 60 /\ 0 <= second t < 60.

(** The chronological order of two instants, field by field. *)
Definition datetime_compare (t u : DateTime) : comparison :=
  lex (lex (Z.compare (year t) (year u)) (lex (Z.compare (month t) (month u)) (Z.compare (day t) (day u))))
      (lex (Z.compare (hour t) (hour u))
           (lex (Z.compare (minute t) (minute u)) (Z.compare (second t) (second u)))).

Lemma compare_dash (s s' : string) :
  String.compare ("-" ++ s) ("-" ++ s') = String.compare s s'.
Proof. reflexivity. Qed.

Lemma compare_colon (s s' : string) :
  String.compare (":" ++ s) (":" ++ s') = String.compare s s'.
Proof. reflexivity. Qed.

(** Sorting the stored date strings is sorting by calendar day: the
    strings compare as the triples (year, month, day). *)
Theorem strftime_date_order (t u : DateTime) :
  valid_date t -> valid_date u ->
  String.compare (strftime_date t) (strftime_date u) =
  lex (Z.compare (year t) (year u)) (lex (Z.compare (month t) (month u)) (Z.compare (day t) (day u))).
Proof.
  intros (Hy & Hm & Hd) (Hy' & Hm' & Hd'). unfold strftime_date.
  rewrite compare_app, pad4_compare, compare_dash, compare_app, pad2_compare, compare_dash,
    pad2_compare by (reflexivity || lia).
  reflexivity.
Qed.

(** The stored time strings compare as the triples (hour, minute, second). *)
Lemma strftime_time_order (t u : DateTime) :
  valid_time t -> valid_time u ->
  String.compare (strftime_time t) (strftime_time u) =
  lex (Z.compare (hour t) (hour u))
    (lex (Z.compare (minute t) (minute u)) (Z.compare (second t) (second u))).
Proof.
  intros (Hh & Hm & Hs) (Hh' & Hm' & Hs'). unfold strftime_time.
  rewrite compare_app, pad2_compare, compare_colon, compare_app, pad2_compare, compare_colon,
    pad2_compare by (reflexivity || lia).
  reflexivity.
Qed.

Lemma strftime_date_order_witness :
  String.compare
    (strftime_date {| year := 2026; month := 2; day := 28; hour := 0; minute := 0; second := 0 |})
    (strftime_date {| year := 2026; month := 11; day := 9; hour := 0; minute := 0; second := 0 |}) =
  lex (Z.compare 2026 2026) (lex (Z.compare 2 11) (Z.compare 28 9)).
Proof. apply strftime_date_order; unfold valid_date; cbn; lia. Defined.

Lemma strftime_time_order_witness :
  String.compare
    (strftime_time {| year := 2026; month := 11; day := 9; hour := 9; minute := 5; second := 0 |})
    (strftime_time {| year := 2026; month := 11; day := 9; hour := 10; minute := 0; second := 0 |}) =
  lex (Z.compare 9 10) (lex (Z.compare 5 0) (Z.compare 0 0)).
Proof. apply strftime_time_order; unfold valid_time; cbn; lia. Defined.
