(* ===== verification/Ledger.v ===== *)
(** * The attendance ledger

    [mark_attendance] (lines 96-124 of [src/face_recognition_service.py])
    opens a connection, looks the student up by name and class, computes
    today's date, checks for an attendance row of that student on that
    date, and inserts one if there is none; the connection is closed in a
    [finally] block.  [clear_attendance] (lines 220-228) deletes a class's
    rows.

    ** The world

    [World] holds the two tables the code touches (the columns it reads
    and writes), the attendance id sequence, the number of open
    connections, the number of database round trips made so far and the
    number of [datetime.now()] calls made so far.  The environment is two
    section variables: [clock n], the instant the [n]-th call of
    [datetime.now()] returns, and [db_fails n], whether the [n]-th round
    trip to the database raises (asyncpg's exceptions are [DBError]).  A
    failed round trip has no effect on the tables.  [fetchval] returns the
    first column of the first row; rows come in table order (the SQL has
    no [ORDER BY], so any order is possible; the model fixes one).  The
    Python truth test [if not x] is false for [None] and for [0].

    ** The theorems

    [mark_attendance_spec] describes every outcome: either nothing was
    inserted and the result is not [True], or the result is [True] and
    exactly the row [(student, class, today, now, "Present")] was
    appended.  From it: the sequential invariant "at most one row per
    student and date" ([mark_attendance_preserves_inv]), the release of the
    connection on every path ([mark_attendance_releases_connection]), and,
    with the three case lemmas, the idempotence of two calls on one day
    ([mark_attendance_idempotent]). *)

From Stdlib Require Import List String ZArith Lia Bool RelationClasses Permutation DecimalString.
From S2P Require Import Prelude DateFmt.
Import ListNotations.

Local Open Scope Z_scope.
Local Open Scope py_scope.

(** A row of [students]: the columns the service reads. *)
Record Student : Type := {
  st_id : Z; st_name : string; st_class : Z; st_classroom : string; st_face_path : string
}.

(** A row of [attendance]. *)
Record AttRow : Type := {
  at_id : Z; at_student : Z; at_class : Z; at_date : string; at_time : string;
  at_status : string
}.

Record World : Type := mkWorld {
  w_students : list Student;
  w_attendance : list AttRow;
  w_next_id : Z;          (** the next value of the attendance id sequence *)
  w_conns : nat;          (** open connections *)
  w_ops : nat;            (** database round trips so far *)
  w_tick : nat            (** [datetime.now()] calls so far *)
}.

Definition set_conns (n : nat) (w : World) : World :=
  mkWorld (w_students w) (w_attendance w) (w_next_id w) n (w_ops w) (w_tick w).
Definition bump_ops (w : World) : World :=
  mkWorld (w_students w) (w_attendance w) (w_next_id w) (w_conns w) (S (w_ops w)) (w_tick w).
Definition bump_tick (w : World) : World :=
  mkWorld (w_students w) (w_attendance w) (w_next_id w) (w_conns w) (w_ops w) (S (w_tick w)).

(** The Python truth value of a [fetchval] result. *)
Definition truthy (v : option Z) : bool :=
  match v with Some z => negb (Z.eqb z 0) | None => false end.

(** [SELECT id FROM students WHERE name = $1 AND class_id = $2]. *)
Definition select_student_id (name : string) (class_id : Z) (students : list Student)
  : option Z :=
  option_map st_id
    (find (fun s => String.eqb (st_name s) name && Z.eqb (st_class s) class_id) students).

(** [SELECT id FROM attendance WHERE student_id = $1 AND date = $2]. *)
Definition select_attendance_id (sid : Z) (date : string) (rows : list AttRow) : option Z :=
  option_map at_id
    (find (fun r => Z.eqb (at_student r) sid && String.eqb (at_date r) date) rows).

Definition att_row (id sid class_id : Z) (date time status : string) : AttRow :=
  {| at_id := id; at_student := sid; at_class := class_id; at_date := date;
     at_time := time; at_status := status |}.

(** [INSERT INTO attendance (student_id, class_id, date, time, status) ...],
    the id drawn from the sequence. *)
Definition insert_attendance (sid class_id : Z) (date time status : string) (w : World) : World :=
  mkWorld (w_students w)
          (w_attendance w ++ [att_row (w_next_id w) sid class_id date time status])
          (w_next_id w + 1) (w_conns w) (w_ops w) (w_tick w).

(** [DELETE FROM attendance WHERE class_id = $1]. *)
Definition delete_class_attendance (class_id : Z) (w : World) : World :=
  mkWorld (w_students w)
          (filter (fun r => negb (Z.eqb (at_class r) class_id)) (w_attendance w))
          (w_next_id w) (w_conns w) (w_ops w) (w_tick w).

Definition db_unavailable : exn := DBError "connection to the database failed".

Section Ledger.

Variable clock : nat -> DateTime.
Variable db_fails : nat -> bool.

(** One round trip to the database server: it raises when the
    environment says so, and otherwise applies [f]. *)
Definition db_call {A} (f : World -> A * World) : st World A :=
  fun w => if db_fails (w_ops w) then (Err db_unavailable, bump_ops w)
           else let (a, w') := f (bump_ops w) in (Ok a, w').

(** [await asyncpg.connect(DATABASE_URL)] (line 37). *)
Definition get_db_connection : st World unit :=
  db_call (fun w => (tt, set_conns (S (w_conns w)) w)).

(** [await conn.close()]. *)
Definition conn_close : st World unit := modify (fun w => set_conns (pred (w_conns w)) w).

(** [datetime.now()]. *)
Definition datetime_now : st World DateTime :=
  fun w => (Ok (clock (w_tick w)), bump_tick w).

(** Lines 96-124. *)
Definition mark_attendance (name : string) (class_id : Z) : st World bool :=
  get_db_connection ;;
  try_finally
    (student_id <- db_call (fun w => (select_student_id name class_id (w_students w), w)) ;;
     match student_id with
     | None => ret false
     | Some sid =>
         if Z.eqb sid 0 then ret false else
         t1 <- datetime_now ;;
         let today := strftime_date t1 in
         existing <- db_call (fun w => (select_attendance_id sid today (w_attendance w), w)) ;;
         if truthy existing then ret false else
         t2 <- datetime_now ;;
         let now := strftime_time t2 in
         db_call (fun w => (tt, insert_attendance sid class_id today now "Present" w)) ;;
         ret true
     end)
    conn_close.

(** Lines 220-228: the response's [message] field (its [status] field is
    the constant ["success"]). *)
Definition clear_attendance (class_id : Z) : st World string :=
  get_db_connection ;;
  try_finally
    (db_call (fun w => (tt, delete_class_attendance class_id w)) ;;
     ret ("Attendance cleared for class " ++ NilZero.string_of_int (Z.to_int class_id))%string)
    conn_close.

End Ledger.

(** ** The invariant and the functional specification *)

Definition att_key (r : AttRow) : Z * string := (at_student r, at_date r).

(** At most one row per student and date, and every row id is truthy and
    below the sequence. *)
Definition ledger_inv (w : World) : Prop :=
  NoDup (map att_key (w_attendance w)) /\
  Forall (fun r => 0 < at_id r < w_next_id w) (w_attendance w) /\
  0 < w_next_id w.

(** What one call of [mark_attendance] does to the world. *)
Definition mark_spec (name : string) (class_id : Z) (w : World) (r : result bool) (w' : World)
  : Prop :=
  w_students w' = w_students w /\ w_conns w' = w_conns w /\
  ((r <> Ok true /\ w_attendance w' = w_attendance w /\ w_next_id w' = w_next_id w) \/
   (r = Ok true /\ exists sid today now,
      select_student_id name class_id (w_students w) = Some sid /\ sid <> 0 /\
      truthy (select_attendance_id sid today (w_attendance w)) = false /\
      w_attendance w' = w_attendance w ++ [att_row (w_next_id w) sid class_id today now "Present"] /\
      w_next_id w' = w_next_id w + 1)).

Arguments select_student_id : simpl never.
Arguments select_attendance_id : simpl never.
Arguments truthy : simpl never.
Arguments strftime_date : simpl never.
Arguments strftime_time : simpl never.

(** Symbolic execution of the ledger's code: unfold the database
    primitives and split on the atomic tests (faults, query results,
    truth tests), innermost first. *)
Ltac run_ledger fails :=
  unfold mark_attendance, clear_attendance, get_db_connection, conn_close, db_call,
    datetime_now in *;
  run_st;
  repeat (cbn in *;
    match goal with
    | |- context [fails ?x] => let F := fresh "F" in destruct (fails x) eqn:F
    | |- context [select_student_id ?a ?b ?c] =>
        let E := fresh "Es" in destruct (select_student_id a b c) eqn:E
    | |- context [Z.eqb ?a ?b] => destruct (Z.eqb_spec a b)
    | |- context [truthy ?o] => let E := fresh "Et" in destruct (truthy o) eqn:E
    end); cbn in *.

(** The frame of [mark_attendance]: the students and the number of open
    connections are unchanged on every path. *)
Lemma mark_attendance_frame clock db_fails name class_id w :
  let w' := snd (mark_attendance clock db_fails name class_id w) in
  w_students w' = w_students w /\ w_conns w' = w_conns w.
Proof. run_ledger db_fails; split; reflexivity. Qed.

(** The effect of [mark_attendance] on the attendance table. *)
Lemma mark_attendance_effect clock db_fails name class_id w :
  let (r, w') := mark_attendance clock db_fails name class_id w in
  (r <> Ok true /\ w_attendance w' = w_attendance w /\ w_next_id w' = w_next_id w) \/
  (r = Ok true /\ exists sid today now,
     select_student_id name class_id (w_students w) = Some sid /\ sid <> 0 /\
     truthy (select_attendance_id sid today (w_attendance w)) = false /\
     w_attendance w' = w_attendance w ++ [att_row (w_next_id w) sid class_id today now "Present"] /\
     w_next_id w' = w_next_id w + 1).
Proof.
  run_ledger db_fails.
  all: first [ left; split; [discriminate | split; reflexivity]
             | right; split; [reflexivity |]; do 3 eexists; repeat split; eauto ].
Qed.

(** C6: every run of [mark_attendance] either leaves the attendance
    table and the sequence unchanged and does not return [True], or
    returns [True] after appending exactly one row
    [(student, class, today, now, "Present")] for a known student with no
    truthy row for that day; students and open connections are unchanged
    in both cases, whatever the clock and the database faults. *)
Theorem mark_attendance_spec clock db_fails name class_id w :
  mark_spec name class_id w (fst (mark_attendance clock db_fails name class_id w))
                            (snd (mark_attendance clock db_fails name class_id w)).
Proof.
  pose proof (mark_attendance_frame clock db_fails name class_id w) as [Hs Hc].
  pose proof (mark_attendance_effect clock db_fails name class_id w) as He.
  destruct (mark_attendance clock db_fails name class_id w) as [r w']. exact (conj Hs (conj Hc He)).
Qed.

(** ** Consequences *)

(** A falsy answer to the attendance query means that no row has the key,
    when every row id is positive. *)
Lemma select_attendance_absent (rows : list AttRow) (sid : Z) (d : string) :
  Forall (fun r => 0 < at_id r) rows ->
  truthy (select_attendance_id sid d rows) = false -> ~ In (sid, d) (map att_key rows).
Proof.
  intros Hpos Hf Hin. apply in_map_iff in Hin as (r & Hk & Hr).
  unfold select_attendance_id in Hf.
  destruct (find _ rows) as [r'|] eqn:E.
  - apply find_some in E as [Hr' _]. rewrite Forall_forall in Hpos.
    specialize (Hpos r' Hr'). unfold truthy in Hf. simpl in Hf.
    destruct (Z.eqb_spec (at_id r') 0); [lia | discriminate].
  - eapply find_none in E; [|exact Hr]. unfold att_key in Hk. injection Hk as <- <-.
    rewrite Z.eqb_refl, String.eqb_refl in E. discriminate.
Qed.

Lemma NoDup_snoc {A} (l : list A) (x : A) : NoDup l -> ~ In x l -> NoDup (l ++ [x]).
Proof.
  intros Hl Hx. apply Permutation_NoDup with (x :: l);
    [apply Permutation_cons_append | constructor; auto].
Qed.

(** C2: the connection opened by [mark_attendance] is closed on every
    path, exceptions included: the number of open connections is the
    same before and after, whatever the clock and the database faults. *)
Theorem mark_attendance_releases_connection clock db_fails name class_id :
  respects (same_on w_conns) (mark_attendance clock db_fails name class_id).
Proof. intros w. apply (mark_attendance_frame clock db_fails name class_id w). Qed.

(** run alone, [mark_attendance] keeps "at most one attendance row
    per student and date" (with positive row ids below the sequence),
    whatever the clock and the database faults. *)
Theorem mark_attendance_preserves_inv clock db_fails name class_id :
  respects (inv_rel ledger_inv) (mark_attendance clock db_fails name class_id).
Proof.
  intros w (Hnd & Hids & Hnext). unfold ledger_inv.
  pose proof (mark_attendance_effect clock db_fails name class_id w) as He.
  destruct (mark_attendance clock db_fails name class_id w) as [r w']. simpl.
  destruct He as [(_ & -> & ->) | (_ & sid & today & now & _ & _ & Hnone & -> & ->)].
  - split; auto.
  - assert (Hpos : Forall (fun r => 0 < at_id r) (w_attendance w))
      by (eapply Forall_impl; [|exact Hids]; simpl; lia).
    split; [|split; [|lia]].
    + rewrite map_app. apply NoDup_snoc; auto.
      eapply select_attendance_absent; eauto.
    + apply Forall_app. split; [|constructor; [simpl; lia | constructor]].
      eapply Forall_impl; [|exact Hids]. simpl. lia.
Qed.

(** Rewrite every fault test [fails x] of the goal to [false], from a
    hypothesis [H : forall k, k < n -> fails (o + k) = false]. *)
Ltac no_faults fails H :=
  repeat match goal with
  | |- context [fails ?x] =>
      let E := fresh "E" in
      assert (E : fails x = false) by
        (match type of H with
         | forall k, _ -> fails (?o + k)%nat = false =>
             replace x with (o + (x - o))%nat by lia; apply H; lia
         end);
      rewrite E; clear E
  end.

Lemma find_app_none {A} (f : A -> bool) (l l' : list A) :
  find f l = None -> find f (l ++ l') = find f l'.
Proof. induction l as [|a l IH]; simpl; auto. destruct (f a); [discriminate | auto]. Qed.

Lemma select_attendance_none (rows : list AttRow) (sid : Z) (d : string) :
  Forall (fun r => 0 < at_id r) rows ->
  truthy (select_attendance_id sid d rows) = false ->
  find (fun r => Z.eqb (at_student r) sid && String.eqb (at_date r) d) rows = None.
Proof.
  intros Hpos Hf. unfold select_attendance_id in Hf.
  destruct (find _ rows) as [r|] eqn:E; auto.
  apply find_some in E as [Hr _]. rewrite Forall_forall in Hpos. specialize (Hpos r Hr).
  unfold truthy in Hf. simpl in Hf. destruct (Z.eqb_spec (at_id r) 0); [lia | discriminate].
Qed.

Section Cases.
Variable clock : nat -> DateTime.
Variable db_fails : nat -> bool.
Variables (name : string) (class_id sid : Z) (w : World).
Hypothesis Hstudent : select_student_id name class_id (w_students w) = Some sid.
Hypothesis Hsid : sid <> 0.


(** A known student not yet marked today: one row is inserted and the
    call returns [True]. *)
Lemma mark_attendance_inserts :
  (forall k, (k < 4)%nat -> db_fails (w_ops w + k) = false) ->
  truthy (select_attendance_id sid (strftime_date (clock (w_tick w))) (w_attendance w)) = false ->
  mark_attendance clock db_fails name class_id w =
  (Ok true, mkWorld (w_students w)
              (w_attendance w ++ [att_row (w_next_id w) sid class_id (strftime_date (clock (w_tick w)))
                                    (strftime_time (clock (S (w_tick w)))) "Present"])
              (w_next_id w + 1) (w_conns w) (4 + w_ops w) (2 + w_tick w)).
Proof.
  intros Hf He. unfold mark_attendance, get_db_connection, conn_close, db_call, datetime_now.
  assert (Heq : (sid =? 0) = false) by (apply Z.eqb_neq; exact Hsid).
  run_st. repeat progress (cbn; no_faults db_fails Hf; rewrite ?Hstudent, ?Heq, ?He).
  reflexivity.
Qed.

(** A known student already marked today: nothing is inserted and the
    call returns [False]. *)
Lemma mark_attendance_already_marked :
  (forall k, (k < 3)%nat -> db_fails (w_ops w + k) = false) ->
  truthy (select_attendance_id sid (strftime_date (clock (w_tick w))) (w_attendance w)) = true ->
  mark_attendance clock db_fails name class_id w =
  (Ok false, mkWorld (w_students w) (w_attendance w) (w_next_id w) (w_conns w)
               (3 + w_ops w) (1 + w_tick w)).
Proof.
  intros Hf He. unfold mark_attendance, get_db_connection, conn_close, db_call, datetime_now.
  assert (Heq : (sid =? 0) = false) by (apply Z.eqb_neq; exact Hsid).
  run_st. repeat progress (cbn; no_faults db_fails Hf; rewrite ?Hstudent, ?Heq, ?He).
  reflexivity.
Qed.
End Cases.

Lemma filter_find_none {A} (f : A -> bool) (l : list A) :
  find f l = None -> filter f l = [].
Proof. induction l as [|a l IH]; simpl; auto. destruct (f a); [discriminate | auto]. Qed.

Definition count_key (sid : Z) (d : string) (rows : list AttRow) : nat :=
  List.length (filter (fun r => Z.eqb (at_student r) sid && String.eqb (at_date r) d) rows).

(** C3: idempotence.  Two calls for the same known student on the same
    calendar day, with the database up, return [True] then [False], and
    exactly one attendance row for that student and day exists
    afterwards. *)
Theorem mark_attendance_idempotent clock db_fails name class_id sid w :
  ledger_inv w ->
  select_student_id name class_id (w_students w) = Some sid -> sid <> 0 ->
  (forall k, (k < 7)%nat -> db_fails (w_ops w + k)%nat = false) ->
  strftime_date (clock (2 + w_tick w)%nat) = strftime_date (clock (w_tick w)) ->
  truthy (select_attendance_id sid (strftime_date (clock (w_tick w))) (w_attendance w)) = false ->
  let (r1, w1) := mark_attendance clock db_fails name class_id w in
  let (r2, w2) := mark_attendance clock db_fails name class_id w1 in
  r1 = Ok true /\ r2 = Ok false /\
  count_key sid (strftime_date (clock (w_tick w))) (w_attendance w2) = 1%nat.
Proof.
  intros (_ & Hids & Hnext) Hs Hz Hf Hday He.
  assert (Hpos : Forall (fun r => 0 < at_id r) (w_attendance w))
    by (eapply Forall_impl; [|exact Hids]; simpl; lia).
  assert (Hnone := select_attendance_none _ _ _ Hpos He).
  assert (Hf4 : forall k, (k < 4)%nat -> db_fails (w_ops w + k)%nat = false)
    by (intros; apply Hf; lia).
  rewrite (mark_attendance_inserts clock db_fails name class_id sid w Hs Hz Hf4 He).
  cbv beta iota.
  rewrite (mark_attendance_already_marked clock db_fails name class_id sid).
  - cbv beta iota. split; [reflexivity | split; [reflexivity |]].
    unfold count_key. cbn [w_attendance]. rewrite filter_app, filter_find_none by exact Hnone.
    cbn. rewrite Z.eqb_refl, String.eqb_refl. reflexivity.
  - exact Hs.
  - exact Hz.
  - intros k Hk. rewrite <- (Hf (4 + k)%nat) by lia. f_equal. cbn. lia.
  - cbn [w_tick w_attendance]. rewrite Hday. unfold select_attendance_id.
    rewrite find_app_none by exact Hnone. cbn. rewrite Z.eqb_refl, String.eqb_refl.
    unfold truthy. cbn. destruct (Z.eqb_spec (w_next_id w) 0); [lia | reflexivity].
Qed.

(** ** The administrative delete *)

(** C23: [clear_attendance] deletes exactly the class's rows when it succeeds,
    changes nothing when it raises, and releases its connection. *)
Lemma clear_attendance_spec db_fails class_id w :
  let (r, w') := clear_attendance db_fails class_id w in
  w_conns w' = w_conns w /\ w_students w' = w_students w /\ w_next_id w' = w_next_id w /\
  match r with
  | Ok _ => w_attendance w' = filter (fun a => negb (Z.eqb (at_class a) class_id)) (w_attendance w)
  | Err _ => w_attendance w' = w_attendance w
  end.
Proof. run_ledger db_fails; repeat split; reflexivity. Qed.

Lemma NoDup_map_filter {A B} (f : A -> B) (p : A -> bool) (l : list A) :
  NoDup (map f l) -> NoDup (map f (filter p l)).
Proof.
  induction l as [|a l IH]; simpl; intros H; [constructor|].
  inversion H as [|? ? Hnot Hl]; subst.
  destruct (p a); simpl; auto. constructor; auto.
  intros Hin. apply Hnot. apply in_map_iff in Hin as (x & Hx & Hin).
  apply filter_In in Hin as [Hin _]. apply in_map_iff. eauto.
Qed.

Lemma clear_attendance_preserves_inv db_fails class_id :
  respects (inv_rel ledger_inv) (clear_attendance db_fails class_id).
Proof.
  intros w (Hnd & Hids & Hnext). pose proof (clear_attendance_spec db_fails class_id w) as H.
  destruct (clear_attendance db_fails class_id w) as [r w'] eqn:E. simpl.
  destruct H as (_ & _ & Hn & Ha). unfold ledger_inv. rewrite Hn.
  destruct r; rewrite Ha; [|auto].
  split; [|split; [|exact Hnext]].
  - apply NoDup_map_filter. exact Hnd.
  - apply Forall_forall. intros x Hx. apply filter_In in Hx as [Hx _].
    rewrite Forall_forall in Hids. auto.
Qed.

(** ** A concrete day *)

Definition nov9 : DateTime :=
  {| year := 2026; month := 11; day := 9; hour := 9; minute := 30; second := 0 |}.

(** One class with student [A] (id 7) and an empty attendance table. *)
Definition one_student : World :=
  mkWorld [{| st_id := 7; st_name := "A"; st_class := 1; st_classroom := "R101"; st_face_path := "" |}]
          [] 1 0 0 0.

Lemma mark_attendance_idempotent_witness :
  let (r1, w1) := mark_attendance (fun _ => nov9) (fun _ => false) "A" 1 one_student in
  let (r2, w2) := mark_attendance (fun _ => nov9) (fun _ => false) "A" 1 w1 in
  r1 = Ok true /\ r2 = Ok false /\ count_key 7 (strftime_date nov9) (w_attendance w2) = 1%nat.
Proof.
  apply (mark_attendance_idempotent (fun _ => nov9) (fun _ => false) "A" 1 7 one_student).
  - split; [constructor | split; [constructor | cbn; lia]].
  - reflexivity.
  - lia.
  - reflexivity.
  - reflexivity.
  - reflexivity.
Defined.
