(* ===== verification/Orchestrator.v ===== *)
(** * The recognition orchestrator

    [recognize_faces_in_image] (lines 127-179 of
    [src/face_recognition_service.py]) and the endpoint that returns its
    result (lines 182-186).  It decodes the base64 image, decodes the
    frame, resizes it to 640x640, runs the detector, and for every detected
    face, in the detector's order, rescales the box, resolves the
    embedding, and for an accepted face appends it to
    [recognized_faces] and calls [mark_attendance], appending the name to
    [attendance_marked] when the call returns [True].  Every exception,
    the [HTTPException(400)] raised for an undecodable frame included, is
    caught by [except Exception] and re-raised as
    [HTTPException(500, "Recognition failed: " + str(e))].

    The decoder, [cv2.resize] and the detector ([face_app.get]) are
    section variables.  The ledger is a parameter [mark] of the section
    [Generic]: the theorems there hold for every ledger, and the
    properties of the whole request that follow from a property of the
    ledger (a relation every [mark] respects: connections released, the
    at-most-once invariant) are proved once ([recognize_respects]) and
    instantiated with [Ledger.mark_attendance]. *)

From Stdlib Require Import List String ZArith QArith Reals Lia Bool RelationClasses DecimalString.
From S2P Require Import Prelude Radical Vectors FlatIndex Resolver Reconciler DateFmt Ledger.
Import ListNotations.

Local Open Scope py_scope.

(** One element of [face_app.get(det_frame)]. *)
Record DetectedFace : Type := {
  f_bbox : DetBox; f_embedding : Vec; f_det_score : Q
}.

(** A decoded frame: [frame.shape[0]], [frame.shape[1]] and its pixels. *)
Record Frame : Type := { fr_height : Z; fr_width : Z; fr_pixels : list Byte.byte }.

(** An element of [recognized_faces]. *)
Record RecognizedFace : Type := {
  rf_name : string; rf_confidence : rad; rf_bbox : BBox
}.

(** [ImageData], the request body of [/recognize-faces] (lines 87-89). *)
Record ImageData : Type := { image_base64 : string; req_class_id : Z }.

(** [RecognitionResult]. *)
Record RecognitionResult : Type := {
  recognized_faces : list RecognizedFace; attendance_marked : list string
}.

(** [str(e)]; Starlette prints an [HTTPException] as
    ["<status_code>: <detail>"]. *)
Definition str_exc (e : exn) : string :=
  match e with
  | HTTPException c d => NilZero.string_of_int (Z.to_int c) ++ ": " ++ d
  | DBError m => m
  | IndexError => "list index out of range"
  | AssertionError => ""
  | ValueError => "need at least one array to concatenate"
  | DecodeError => "Incorrect padding"
  end.

(** ** What the orchestrator needs of a ledger

    The request calls the ledger and nothing else that changes the
    state; what it promises about the state it therefore inherits from
    two laws of the ledger: it keeps an invariant [inv] of the state, and
    it leaves a count [conns] of open resources as it found it. *)
Class LedgerLaws {W : Type} (mark : string -> Z -> st W bool) (inv : W -> Prop)
  (conns : W -> nat) : Prop := {
  mark_keeps_inv : forall name class_id, respects (inv_rel inv) (mark name class_id);
  mark_keeps_conns : forall name class_id, respects (same_on conns) (mark name class_id)
}.

(** What the orchestrator needs of a ledger to account for the rows it
    writes: a call only appends to a table [rows], one row when it
    answers [True] and none otherwise. *)
Class LedgerRows {W R : Type} (mark : string -> Z -> st W bool) (rows : W -> list R) : Prop := {
  mark_appends : forall name class_id w, exists added,
    rows (snd (mark name class_id w)) = (rows w ++ added)%list /\
    List.length added = reported (fst (mark name class_id w))
}.

Section Generic.

Context {W : Type}.
Variable mark : string -> Z -> st W bool.
Variable b64decode : string -> option (list Byte.byte).
Variable imdecode : list Byte.byte -> option Frame.
Variable resize640 : Frame -> Frame.
Variable face_app_get : Frame -> list DetectedFace.
Variable idx : FaceIndex.

(** The body of the loop (lines 148-171), for a frame of the given size. *)
Definition process_face (class_id : Z) (width height : Z)
  (acc : list RecognizedFace * list string) (face : DetectedFace)
  : st W (list RecognizedFace * list string) :=
  let bbox := reconcile_bbox (f_bbox face) width height in
  match resolve_face idx (f_embedding face) with
  | Err e => raise e
  | Ok None => ret acc
  | Ok (Some (name, conf)) =>
      let recognized := fst acc ++ [{| rf_name := name; rf_confidence := conf; rf_bbox := bbox |}] in
      marked <- mark name class_id ;;
      if marked then ret (recognized, snd acc ++ [name]) else ret (recognized, snd acc)
  end.

Fixpoint process_faces (class_id width height : Z) (faces : list DetectedFace)
  (acc : list RecognizedFace * list string) : st W (list RecognizedFace * list string) :=
  match faces with
  | [] => ret acc
  | face :: rest =>
      acc' <- process_face class_id width height acc face ;;
      process_faces class_id width height rest acc'
  end.

(** The [try] block (lines 129-176). *)
Definition recognize_body (image_base64 : string) (class_id : Z) : st W RecognitionResult :=
  match b64decode image_base64 with
  | None => raise DecodeError
  | Some image_data =>
      match imdecode image_data with
      | None => raise (HTTPException 400 "Invalid image data")
      | Some frame =>
          let det_frame := resize640 frame in
          let faces := face_app_get det_frame in
          acc <- process_faces class_id (fr_width frame) (fr_height frame) faces ([], []) ;;
          ret {| recognized_faces := fst acc; attendance_marked := snd acc |}
      end
  end.

(** Lines 127-179. *)
Definition recognize_faces_in_image (image_base64 : string) (class_id : Z)
  : st W RecognitionResult :=
  try_except (recognize_body image_base64 class_id)
    (fun e => raise (HTTPException 500 ("Recognition failed: " ++ str_exc e))).

(** The endpoint [/recognize-faces] (lines 182-186). *)
Definition recognize_faces (image_data : ImageData) : st W RecognitionResult :=
  recognize_faces_in_image (image_base64 image_data) (req_class_id image_data).

(** What the loop appends to [recognized_faces] for one face: the face,
    when the resolver accepts it. *)
Definition accepted (width height : Z) (face : DetectedFace) : list RecognizedFace :=
  match resolve_face idx (f_embedding face) with
  | Ok (Some (name, conf)) =>
      [{| rf_name := name; rf_confidence := conf;
          rf_bbox := reconcile_bbox (f_bbox face) width height |}]
  | _ => []
  end.

(** C13: Every exception of the body is caught and re-raised with status 500. *)
Lemma recognize_errors_500 image_base64 class_id s e s' :
  recognize_faces_in_image image_base64 class_id s = (Err e, s') ->
  exists d, e = HTTPException 500 d.
Proof.
  unfold recognize_faces_in_image, try_except, raise.
  destruct (recognize_body image_base64 class_id s) as [[a|e0] s1]; intros H;
    [discriminate | inversion H; eauto].
Qed.

(** C12: The [HTTPException(400)] for an undecodable frame is itself caught:
    the client receives a 500 whose detail embeds the 400. *)
Lemma recognize_invalid_frame image_base64 class_id data s :
  b64decode image_base64 = Some data -> imdecode data = None ->
  recognize_faces_in_image image_base64 class_id s =
  (Err (HTTPException 500 "Recognition failed: 400: Invalid image data"), s).
Proof.
  intros Hb Hi. unfold recognize_faces_in_image, recognize_body. rewrite Hb, Hi.
  reflexivity.
Qed.

(** One step of the loop: an accepted face is appended, and its name is
    appended to [attendance_marked] at most once, after it. *)
Lemma process_face_shape class_id width height acc face s acc' s' :
  process_face class_id width height acc face s = (Ok acc', s') ->
  fst acc' = fst acc ++ accepted width height face /\
  (subseq (snd acc) (map rf_name (fst acc)) -> subseq (snd acc') (map rf_name (fst acc'))).
Proof.
  unfold process_face, accepted.
  destruct (resolve_face idx (f_embedding face)) as [[[name conf]|]|e]; run_st.
  - destruct (mark name class_id s) as [[[|]|e] s1]; cbn; intros H; inversion H; subst;
      cbn; rewrite ?map_app; cbn; split; auto with py.
  - intros H. inversion H; subst. rewrite app_nil_r. split; auto.
  - discriminate.
Qed.

(** The loop, from any accumulator. *)
Lemma process_faces_shape class_id width height faces : forall acc s acc' s',
  process_faces class_id width height faces acc s = (Ok acc', s') ->
  fst acc' = fst acc ++ flat_map (accepted width height) faces /\
  (subseq (snd acc) (map rf_name (fst acc)) -> subseq (snd acc') (map rf_name (fst acc'))).
Proof.
  induction faces as [|face rest IH]; intros acc s acc' s'; cbn.
  - intros H. inversion H; subst. rewrite app_nil_r. split; auto.
  - unfold bind. destruct (process_face class_id width height acc face s) as [[a|e] s1] eqn:E;
      [|discriminate].
    intros H. apply process_face_shape in E as [E1 E2]. apply IH in H as [H1 H2].
    split; [rewrite H1, E1, <- app_assoc; reflexivity | auto].
Qed.

(** C14: A successful request reports the accepted faces in the detector's
    order, each with its rescaled box, and [attendance_marked] is a
    subsequence of their names. *)
Lemma recognize_shape image_base64 class_id data frame s res s' :
  b64decode image_base64 = Some data -> imdecode data = Some frame ->
  recognize_faces_in_image image_base64 class_id s = (Ok res, s') ->
  recognized_faces res =
    flat_map (accepted (fr_width frame) (fr_height frame)) (face_app_get (resize640 frame)) /\
  subseq (attendance_marked res) (map rf_name (recognized_faces res)).
Proof.
  intros Hb Hi. unfold recognize_faces_in_image, recognize_body, try_except, bind, raise.
  rewrite Hb, Hi.
  destruct (process_faces class_id (fr_width frame) (fr_height frame)
              (face_app_get (resize640 frame)) ([], []) s) as [[acc|e] s1] eqn:E;
    intros H; [inversion H; subst | discriminate].
  apply process_faces_shape in E as [E1 E2]. cbn in *. split; auto with py.
Qed.

(** One accepted face is well typed: a confidence above [0.5], a label
    of the index, a box inside the original frame. *)
Lemma accepted_type width height face rf :
  (0 <= width)%Z -> (0 <= height)%Z -> det_box_inside (f_bbox face) ->
  In rf (accepted width height face) ->
  (1 / 2 < rad_val (rf_confidence rf))%R /\ In (rf_name rf) (fi_labels idx) /\
  bbox_inside (rf_bbox rf) width height.
Proof.
  intros Hw Hh Hb. unfold accepted.
  destruct (resolve_face idx (f_embedding face)) as [[[name conf]|]|] eqn:E;
    intros H; [|destruct H | destruct H].
  destruct H as [<-|[]]. cbn [rf_confidence rf_name rf_bbox].
  apply resolve_face_some in E as (Ht & i & r & Hr & Hl & ->).
  destruct (rad_gtb_nums _ _ Ht) as [Hnum _].
  split; [apply above_threshold_iff; auto |].
  split; [eapply nth_error_In; eauto | apply reconcile_bbox_inside; auto].
Qed.

(** C15: The response is well typed: with the detector's boxes inside
    the detection frame, every recognised face has a confidence above
    [0.5], a label of the index, and a box inside the original frame. *)
Theorem recognize_response_type image_base64 class_id data frame s res s' :
  b64decode image_base64 = Some data -> imdecode data = Some frame ->
  (0 <= fr_width frame)%Z -> (0 <= fr_height frame)%Z ->
  Forall (fun f => det_box_inside (f_bbox f)) (face_app_get (resize640 frame)) ->
  recognize_faces_in_image image_base64 class_id s = (Ok res, s') ->
  Forall (fun rf => (1 / 2 < rad_val (rf_confidence rf))%R /\
                    In (rf_name rf) (fi_labels idx) /\
                    bbox_inside (rf_bbox rf) (fr_width frame) (fr_height frame))
         (recognized_faces res).
Proof.
  intros Hb Hi Hw Hh Hboxes.
  unfold recognize_faces_in_image, recognize_body, try_except, bind, raise. rewrite Hb, Hi.
  destruct (process_faces class_id (fr_width frame) (fr_height frame)
              (face_app_get (resize640 frame)) ([], []) s) as [[acc|e] s1] eqn:E;
    intros H; [inversion H; subst | discriminate].
  apply process_faces_shape in E as [E1 _]. cbn in *. rewrite E1.
  apply Forall_forall. intros rf Hrf. apply in_flat_map in Hrf as (f & Hf & Hrf).
  rewrite Forall_forall in Hboxes. eapply accepted_type; eauto.
Qed.

(** The loop has no rollback: when a later face's call of the ledger
    raises, the request fails with the state that call left, the earlier
    faces' writes included. *)
Lemma recognize_error_after_mark image_base64 class_id data frame s f1 f2 rest
  name1 conf1 name2 conf2 b1 s1 e s2 :
  b64decode image_base64 = Some data -> imdecode data = Some frame ->
  face_app_get (resize640 frame) = f1 :: f2 :: rest ->
  resolve_face idx (f_embedding f1) = Ok (Some (name1, conf1)) ->
  mark name1 class_id s = (Ok b1, s1) ->
  resolve_face idx (f_embedding f2) = Ok (Some (name2, conf2)) ->
  mark name2 class_id s1 = (Err e, s2) ->
  recognize_faces_in_image image_base64 class_id s =
  (Err (HTTPException 500 ("Recognition failed: " ++ str_exc e)), s2).
Proof.
  intros Hb Hi Hf H1 M1 H2 M2.
  unfold recognize_faces_in_image, recognize_body. rewrite Hb, Hi, Hf. cbn [process_faces].
  unfold process_face. rewrite H1, H2. run_st. rewrite M1.
  destruct b1; cbn; rewrite M2; reflexivity.
Qed.

Section Frame.
Context (R : W -> W -> Prop) `{PreOrder W R}.
Hypothesis mark_respects : forall name class_id, respects R (mark name class_id).

Lemma process_face_respects class_id width height acc face :
  respects R (process_face class_id width height acc face).
Proof.
  unfold process_face. destruct (resolve_face idx (f_embedding face)) as [[[? ?]|]|];
    auto with py.
Qed.

Lemma process_faces_respects class_id width height faces : forall acc,
  respects R (process_faces class_id width height faces acc).
Proof. induction faces; intros; cbn; eauto using process_face_respects with py. Qed.

(** A relation that every call of the ledger respects is respected by the
    whole request, on its success and on its error paths. *)
Lemma recognize_respects image_base64 class_id :
  respects R (recognize_faces_in_image image_base64 class_id).
Proof.
  unfold recognize_faces_in_image, recognize_body.
  apply (respects_try_except R); [|auto with py].
  destruct (b64decode image_base64) as [l|]; [destruct (imdecode l)|]; cbv zeta;
    [apply (respects_bind R); [apply process_faces_respects | auto with py] | auto with py ..].
Qed.
End Frame.

Section Laws.
Context {inv : W -> Prop} {conns : W -> nat} `{!LedgerLaws mark inv conns}.

(** Against the interface: a request keeps the ledger's invariant and
    releases what the ledger acquires, on every path. *)
Lemma recognize_ledger_laws image_base64 class_id :
  respects (inv_rel inv) (recognize_faces_in_image image_base64 class_id) /\
  respects (same_on conns) (recognize_faces_in_image image_base64 class_id).
Proof.
  split; apply recognize_respects; try exact _; intros; [apply mark_keeps_inv | apply mark_keeps_conns].
Qed.
End Laws.

Section Rows.
Context {R : Type} {rows : W -> list R} `{!LedgerRows mark rows}.

Lemma process_face_rows class_id width height acc face s :
  exists added, rows (snd (process_face class_id width height acc face s)) = (rows s ++ added)%list /\
    forall acc', fst (process_face class_id width height acc face s) = Ok acc' ->
      List.length (snd acc') = (List.length (snd acc) + List.length added)%nat.
Proof.
  unfold process_face. destruct (resolve_face idx (f_embedding face)) as [[[name conf]|]|e]; run_st.
  - destruct (mark_appends name class_id s) as (added & Ha & Hl).
    destruct (mark name class_id s) as [[[|]|e] s1]; cbn in *; exists added;
      split; auto; intros acc' H; inversion H; subst; cbn; rewrite ?length_app; cbn; lia.
  - exists []. rewrite app_nil_r. split; [reflexivity|]. intros acc' H. inversion H. cbn. lia.
  - exists []. rewrite app_nil_r. split; [reflexivity | discriminate].
Qed.

Lemma process_faces_rows class_id width height faces : forall acc s,
  exists added, rows (snd (process_faces class_id width height faces acc s)) = (rows s ++ added)%list /\
    forall acc', fst (process_faces class_id width height faces acc s) = Ok acc' ->
      List.length (snd acc') = (List.length (snd acc) + List.length added)%nat.
Proof.
  induction faces as [|face rest IH]; intros acc s; cbn.
  - exists []. rewrite app_nil_r. split; [reflexivity|]. intros acc' H. inversion H. cbn. lia.
  - unfold bind. destruct (process_face_rows class_id width height acc face s) as (a1 & H1 & L1).
    destruct (process_face class_id width height acc face s) as [[acc1|e] s1]; cbn in *.
    + destruct (IH acc1 s1) as (a2 & H2 & L2). exists (a1 ++ a2)%list.
      rewrite H2, H1, app_assoc. split; [reflexivity|].
      intros acc' H. rewrite (L2 acc' H), (L1 acc1 eq_refl), length_app. lia.
    + exists a1. split; [exact H1 | discriminate].
Qed.

(** Against the interface: a request only appends to the ledger's table,
    and when it succeeds it appended one row per name of
    [attendance_marked]. *)
Lemma recognize_rows image_base64 class_id s :
  exists added,
    rows (snd (recognize_faces_in_image image_base64 class_id s)) = (rows s ++ added)%list /\
    forall res, fst (recognize_faces_in_image image_base64 class_id s) = Ok res ->
      List.length added = List.length (attendance_marked res).
Proof.
  unfold recognize_faces_in_image, recognize_body. run_st.
  destruct (b64decode image_base64) as [l|]; [destruct (imdecode l) as [frame|]|]; run_st;
    try (exists []; rewrite app_nil_r; split; [reflexivity | discriminate]).
  destruct (process_faces_rows class_id (fr_width frame) (fr_height frame)
              (face_app_get (resize640 frame)) ([], []) s) as (added & Ha & Hl).
  destruct (process_faces class_id (fr_width frame) (fr_height frame)
              (face_app_get (resize640 frame)) ([], []) s) as [[acc|e] s1]; cbn in *;
    exists added; split; auto; [|discriminate].
  intros res H. inversion H; subst. cbn. rewrite (Hl acc eq_refl). reflexivity.
Qed.
End Rows.

End Generic.

(** [mark_attendance] meets the interface, with the at-most-once
    invariant and the number of open connections. *)
#[export] Instance mark_attendance_laws clock db_fails :
  LedgerLaws (mark_attendance clock db_fails) ledger_inv w_conns.
Proof.
  split; [apply mark_attendance_preserves_inv |].
  intros name c w. apply (mark_attendance_frame clock db_fails name c w).
Qed.

(** ** The request against the ledger of [Ledger.v] *)

(** C16: a recognition request closes every connection it opens, on every
    path: the open connections after the request equal those before,
    whatever the image, the detector, the index, the clock and the
    database faults. *)
Theorem recognize_releases_connection clock db_fails b64decode imdecode resize640
  face_app_get idx image_base64 class_id :
  respects (same_on w_conns)
    (recognize_faces_in_image (mark_attendance clock db_fails) b64decode imdecode resize640
       face_app_get idx image_base64 class_id).
Proof. apply recognize_ledger_laws with (inv := ledger_inv); exact _. Qed.

(** C17: run alone, a recognition request keeps "at most one attendance
    row per student and date", whatever it recognises and wherever it
    fails. *)
Theorem recognize_preserves_inv clock db_fails b64decode imdecode resize640
  face_app_get idx image_base64 class_id :
  respects (inv_rel ledger_inv)
    (recognize_faces_in_image (mark_attendance clock db_fails) b64decode imdecode resize640
       face_app_get idx image_base64 class_id).
Proof. apply recognize_ledger_laws with (conns := w_conns); exact _. Qed.

(** [mark_attendance] accounts for its rows: it appends one row when it
    answers [True] and leaves the table as it was otherwise. *)
#[export] Instance mark_attendance_rows clock db_fails :
  LedgerRows (mark_attendance clock db_fails) w_attendance.
Proof.
  constructor. intros name c w.
  pose proof (mark_attendance_effect clock db_fails name c w) as He.
  destruct (mark_attendance clock db_fails name c w) as [r w']. cbn [fst snd].
  destruct He as [(Hr & Ha & _) | (-> & sid & today & now & _ & _ & _ & Ha & _)].
  - exists []. rewrite Ha, app_nil_r. split; [reflexivity|].
    destruct r as [[|]|]; [congruence | reflexivity | reflexivity].
  - eexists [_]. split; [exact Ha | reflexivity].
Qed.

(** C10: a recognition request, at the endpoint [/recognize-faces], only
    appends to the attendance table, on its success and on its error
    paths; when it succeeds it has appended exactly one row per name of
    [attendance_marked]: the response accounts for every row the request
    wrote. *)
Theorem recognize_appends_marked clock db_fails b64decode imdecode resize640 face_app_get idx
  image_data w :
  let (r, w') := recognize_faces (mark_attendance clock db_fails) b64decode imdecode resize640
                   face_app_get idx image_data w in
  exists added, w_attendance w' = (w_attendance w ++ added)%list /\
    forall res, r = Ok res -> List.length added = List.length (attendance_marked res).
Proof.
  unfold recognize_faces.
  pose proof (recognize_rows (mark_attendance clock db_fails) b64decode imdecode resize640
                face_app_get idx (image_base64 image_data) (req_class_id image_data) w) as H.
  destruct (recognize_faces_in_image _ _ _ _ _ _ _ _ w) as [r w']. exact H.
Qed.

(** C8: no rollback.  When the first face's student is marked and the
    second face's call of [mark_attendance] then fails (a database fault),
    the client receives a 500, yet the row written for the first face
    stays in the table: the client is told recognition failed while the
    student is marked present. *)
Theorem recognize_partial_commit clock db_fails b64decode imdecode resize640 face_app_get idx
  image_base64 class_id data frame w f1 f2 rest name1 conf1 name2 conf2 e :
  b64decode image_base64 = Some data -> imdecode data = Some frame ->
  face_app_get (resize640 frame) = f1 :: f2 :: rest ->
  resolve_face idx (f_embedding f1) = Ok (Some (name1, conf1)) ->
  resolve_face idx (f_embedding f2) = Ok (Some (name2, conf2)) ->
  fst (mark_attendance clock db_fails name1 class_id w) = Ok true ->
  fst (mark_attendance clock db_fails name2 class_id
         (snd (mark_attendance clock db_fails name1 class_id w))) = Err e ->
  let (r, w') := recognize_faces_in_image (mark_attendance clock db_fails) b64decode imdecode
                   resize640 face_app_get idx image_base64 class_id w in
  r = Err (HTTPException 500 ("Recognition failed: " ++ str_exc e)) /\
  exists row, w_attendance w' = (w_attendance w ++ [row])%list /\
              at_class row = class_id /\ at_status row = "Present"%string.
Proof.
  intros Hb Hi Hf H1 H2 M1 M2.
  pose proof (mark_attendance_effect clock db_fails name1 class_id w) as X1.
  destruct (mark_attendance clock db_fails name1 class_id w) as [r1 w1] eqn:E1.
  cbn [fst snd] in M1, M2. subst r1.
  pose proof (mark_attendance_effect clock db_fails name2 class_id w1) as X2.
  destruct (mark_attendance clock db_fails name2 class_id w1) as [r2 w2] eqn:E2.
  cbn [fst] in M2. subst r2.
  rewrite (recognize_error_after_mark (mark_attendance clock db_fails) b64decode imdecode
             resize640 face_app_get idx image_base64 class_id data frame w f1 f2 rest
             name1 conf1 name2 conf2 true w1 e w2 Hb Hi Hf H1 E1 H2 E2).
  split; [reflexivity|].
  destruct X1 as [(Hc & _) | (_ & sid & today & now & _ & _ & _ & Ha1 & _)]; [congruence|].
  destruct X2 as [(_ & Ha2 & _) | (Hc & _)]; [|discriminate].
  eexists. rewrite Ha2, Ha1. split; [reflexivity | split; reflexivity].
Qed.

(** [mark_attendance] answers [True] only after finding no row for the
    student and the date of one of its clock reads, and then writes that
    row. *)
Lemma mark_attendance_true_today clock db_fails name class_id w :
  fst (mark_attendance clock db_fails name class_id w) = Ok true ->
  exists sid k, select_student_id name class_id (w_students w) = Some sid /\
    truthy (select_attendance_id sid (strftime_date (clock k)) (w_attendance w)) = false /\
    In (sid, strftime_date (clock k))
       (map att_key (w_attendance (snd (mark_attendance clock db_fails name class_id w)))).
Proof.
  run_ledger db_fails; intros H; try discriminate.
  do 2 eexists. split; [reflexivity|]. split; [eassumption|].
  rewrite map_app, in_app_iff. right. left. reflexivity.
Qed.

(** The names reported as marked, each with its row for day [d]. *)
Definition marked_today (class_id : Z) (d : string) (names : list string) (w : World) : Prop :=
  ledger_inv w /\ NoDup names /\
  forall n, In n names -> exists sid, select_student_id n class_id (w_students w) = Some sid /\
                                      In (sid, d) (map att_key (w_attendance w)).

Section OneDay.
Variables (clock : nat -> DateTime) (db_fails : nat -> bool) (idx : FaceIndex) (d : string).
Hypothesis same_day : forall n, strftime_date (clock n) = d.

Lemma mark_attendance_once name class_id names w :
  marked_today class_id d names w ->
  let (r, w1) := mark_attendance clock db_fails name class_id w in
  marked_today class_id d names w1 /\ (r = Ok true -> marked_today class_id d (names ++ [name]) w1).
Proof.
  intros (Hinv & Hnd & Hin).
  pose proof (mark_attendance_preserves_inv clock db_fails name class_id w Hinv) as Hinv1.
  pose proof (mark_attendance_frame clock db_fails name class_id w) as [Hs _].
  destruct (mark_appends (mark := mark_attendance clock db_fails) name class_id w) as (added & Ha & _).
  pose proof (mark_attendance_true_today clock db_fails name class_id w) as Ht.
  destruct (mark_attendance clock db_fails name class_id w) as [r w1]. cbn [fst snd] in *.
  assert (Hkeep : forall n, In n names -> exists sid,
            select_student_id n class_id (w_students w1) = Some sid /\
            In (sid, d) (map att_key (w_attendance w1))).
  { intros n Hn. destruct (Hin n Hn) as (sid & H1 & H2). exists sid.
    rewrite Hs, Ha, map_app, in_app_iff. auto. }
  split; [split; auto|]. intros ->.
  destruct (Ht eq_refl) as (sid & k & Hsid & Hf & Hk). rewrite same_day in Hf, Hk.
  destruct Hinv as (_ & Hids & _).
  split; [exact Hinv1 | split].
  - apply NoDup_snoc; [exact Hnd|]. intros Hn. destruct (Hin name Hn) as (sid' & H1 & H2).
    rewrite Hsid in H1. injection H1 as <-.
    refine (select_attendance_absent (w_attendance w) sid d _ Hf H2).
    eapply Forall_impl; [|exact Hids]. cbn. lia.
  - intros n Hn. apply in_app_iff in Hn as [Hn|[<-|[]]]; [auto|]. exists sid. rewrite Hs. auto.
Qed.

Lemma process_faces_once class_id width height faces : forall acc w acc' w',
  marked_today class_id d (snd acc) w ->
  process_faces (mark_attendance clock db_fails) idx class_id width height faces acc w = (Ok acc', w') ->
  marked_today class_id d (snd acc') w'.
Proof.
  induction faces as [|face rest IH]; intros acc w acc' w' Hm; cbn.
  - intros H. inversion H; subst. exact Hm.
  - unfold bind at 1. intros H.
    destruct (process_face (mark_attendance clock db_fails) idx class_id width height acc face w)
      as [[acc1|e] w1] eqn:E; [|discriminate].
    apply (IH acc1 w1); [|exact H]. revert E. unfold process_face.
    destruct (resolve_face idx (f_embedding face)) as [[[name conf]|]|e]; run_st.
    + pose proof (mark_attendance_once name class_id (snd acc) w Hm) as Ho.
      destruct (mark_attendance clock db_fails name class_id w) as [[[|]|e] w2]; cbn;
        intros E; inversion E; subst; cbn; [apply (proj2 Ho eq_refl) | apply (proj1 Ho)].
    + intros E. inversion E; subst. exact Hm.
    + discriminate.
Qed.
End OneDay.

(** C9: a frame in which the same student is detected several times, or
    a request repeated the same day, marks each student once: when every
    clock read of the request falls on the same calendar day [d] and the
    table keeps the ledger invariant, the names in [attendance_marked]
    are distinct, and each is a student of the class with an attendance
    row for [d] after the request. *)
Theorem recognize_marks_once clock db_fails b64decode imdecode resize640 face_app_get idx d
  image_base64 class_id w res w' :
  ledger_inv w -> (forall n, strftime_date (clock n) = d) ->
  recognize_faces_in_image (mark_attendance clock db_fails) b64decode imdecode resize640
    face_app_get idx image_base64 class_id w = (Ok res, w') ->
  NoDup (attendance_marked res) /\
  forall n, In n (attendance_marked res) ->
    exists sid, select_student_id n class_id (w_students w) = Some sid /\
                In (sid, d) (map att_key (w_attendance w')).
Proof.
  intros Hinv Hd H.
  assert (Hs : w_students w' = w_students w).
  { pose proof (recognize_respects (mark_attendance clock db_fails) b64decode imdecode resize640
                  face_app_get idx (same_on w_students) (fun n c w => proj1 (mark_attendance_frame clock db_fails n c w))
                  image_base64 class_id w) as Hr.
    rewrite H in Hr. exact Hr. }
  revert H. unfold recognize_faces_in_image, recognize_body, try_except, bind, raise.
  destruct (b64decode image_base64) as [l|]; [|discriminate].
  destruct (imdecode l) as [frame|]; [|discriminate].
  destruct (process_faces _ _ _ _ _ _ _ _) as [[acc|e] s1] eqn:E; intros H; [|discriminate].
  inversion H; subst. cbn [attendance_marked].
  apply (process_faces_once clock db_fails idx d Hd) in E as (_ & Hnd & Hin);
    [|split; [exact Hinv | split; [constructor | intros n []]]].
  rewrite <- Hs. auto.
Qed.

(** ** Scenarios *)

(** A 1280x960 frame; its pixels play no role once the detector is fixed. *)
Definition frame_1280x960 : Frame := {| fr_height := 960; fr_width := 1280; fr_pixels := [] |}.

Definition face_at (x1 y1 x2 y2 : Q) (e : Vec) : DetectedFace :=
  {| f_bbox := {| dx1 := x1; dy1 := y1; dx2 := x2; dy2 := y2 |}; f_embedding := e;
     f_det_score := 9 # 10 |}.

(** The request with a decoder that always yields [frame], a detector that
    always yields [faces], and the enrolled identities [A] and [B]. *)
Definition request (frame : Frame) (faces : list DetectedFace) (clock : nat -> DateTime)
  (db_fails : nat -> bool) (class_id : Z) : st World RecognitionResult :=
  recognize_faces_in_image (mark_attendance clock db_fails) (fun _ => Some [])
    (fun _ => Some frame) (fun f => f) (fun _ => faces) two_orthogonal "" class_id.

Definition marked_names (r : result RecognitionResult) : result (list string) :=
  result_map attendance_marked r.

Definition recognized (r : result RecognitionResult) : result (list (string * BBox)) :=
  result_map (fun res => map (fun f => (rf_name f, rf_bbox f)) (recognized_faces res)) r.

(** Students [A] (id 7) and [B] (id 8) of class 1, no attendance yet. *)
Definition two_students : World :=
  mkWorld [{| st_id := 7; st_name := "A"; st_class := 1; st_classroom := "R101"; st_face_path := "" |};
           {| st_id := 8; st_name := "B"; st_class := 1; st_classroom := "R101"; st_face_path := "" |}]
          [] 1 0 0 0.

(** ** Instances of the generic theorems *)

Definition scenario_faces : list DetectedFace :=
  [face_at 100 100 300 300 [1; 0]%Q; face_at 400 100 500 200 [-1; -1]%Q].

Definition scenario_run : result RecognitionResult * World :=
  request frame_1280x960 scenario_faces (fun _ => nov9) (fun _ => false) 1 one_student.

Definition result_or_empty (r : result RecognitionResult) : RecognitionResult :=
  match r with
  | Ok res => res
  | Err _ => {| recognized_faces := []; attendance_marked := [] |}
  end.

Lemma recognize_shape_witness :
  recognized_faces (result_or_empty (fst scenario_run)) =
    flat_map (accepted two_orthogonal 1280 960) scenario_faces /\
  subseq (attendance_marked (result_or_empty (fst scenario_run)))
    (map rf_name (recognized_faces (result_or_empty (fst scenario_run)))).
Proof.
  apply (recognize_shape (mark_attendance (fun _ => nov9) (fun _ => false)) (fun _ => Some [])
           (fun _ => Some frame_1280x960) (fun f => f) (fun _ => scenario_faces) two_orthogonal
           "" 1 [] frame_1280x960 one_student _ (snd scenario_run));
    [reflexivity | reflexivity | vm_compute; reflexivity].
Defined.

Lemma recognize_invalid_frame_witness :
  recognize_faces_in_image (mark_attendance (fun _ => nov9) (fun _ => false)) (fun _ => Some [])
    (fun _ => None) (fun f => f) (fun _ => []) two_orthogonal "" 1 one_student =
  (Err (HTTPException 500 "Recognition failed: 400: Invalid image data"), one_student).
Proof.
  apply (recognize_invalid_frame (mark_attendance (fun _ => nov9) (fun _ => false))
           (fun _ => Some []) (fun _ => None) (fun f => f) (fun _ => []) two_orthogonal
           "" 1 []); reflexivity.
Defined.

Lemma recognize_errors_500_witness :
  exists d, HTTPException 500 "Recognition failed: connection to the database failed" =
            HTTPException 500 d.
Proof.
  apply (recognize_errors_500 (mark_attendance (fun _ => nov9) (fun n => Nat.eqb n 4))
           (fun _ => Some []) (fun _ => Some frame_1280x960) (fun f => f)
           (fun _ => [face_at 0 0 10 10 [1; 0]%Q; face_at 20 20 30 30 [0; 1]%Q])
           two_orthogonal "" 1 two_students
           _ (snd (request frame_1280x960 [face_at 0 0 10 10 [1; 0]%Q; face_at 20 20 30 30 [0; 1]%Q]
                     (fun _ => nov9) (fun n => Nat.eqb n 4) 1 two_students))).
  vm_compute. reflexivity.
Defined.

Lemma recognize_response_type_witness :
  Forall (fun rf => (1 / 2 < rad_val (rf_confidence rf))%R /\
                    In (rf_name rf) (fi_labels two_orthogonal) /\
                    bbox_inside (rf_bbox rf) 1280 960)
         (recognized_faces (result_or_empty (fst scenario_run))).
Proof.
  apply (recognize_response_type (mark_attendance (fun _ => nov9) (fun _ => false))
           (fun _ => Some []) (fun _ => Some frame_1280x960) (fun f => f) (fun _ => scenario_faces)
           two_orthogonal "" 1 [] frame_1280x960 one_student _ (snd scenario_run)).
  - reflexivity.
  - reflexivity.
  - discriminate.
  - discriminate.
  - repeat constructor; discriminate.
  - vm_compute. reflexivity.
Defined.

Definition two_faces : list DetectedFace :=
  [face_at 0 0 10 10 [1; 0]%Q; face_at 20 20 30 30 [0; 1]%Q].

Lemma recognize_partial_commit_witness :
  let (r, w') := recognize_faces_in_image (mark_attendance (fun _ => nov9) (fun n => Nat.eqb n 4))
                   (fun _ => Some []) (fun _ => Some frame_1280x960) (fun f => f)
                   (fun _ => two_faces) two_orthogonal "" 1 two_students in
  r = Err (HTTPException 500 ("Recognition failed: " ++ str_exc db_unavailable)) /\
  exists row, w_attendance w' = (w_attendance two_students ++ [row])%list /\
              at_class row = 1%Z /\ at_status row = "Present"%string.
Proof.
  apply (recognize_partial_commit (fun _ => nov9) (fun n => Nat.eqb n 4) (fun _ => Some [])
           (fun _ => Some frame_1280x960) (fun f => f) (fun _ => two_faces) two_orthogonal "" 1 []
           frame_1280x960 two_students (face_at 0 0 10 10 [1; 0]%Q) (face_at 20 20 30 30 [0; 1]%Q) []
           "A" (ip (normalize [1; 0]%Q) (normalize [1; 0]%Q))
           "B" (ip (normalize [0; 1]%Q) (normalize [0; 1]%Q)));
    vm_compute; reflexivity.
Defined.

(** Two detections of [A] in one frame. *)
Definition twice_A : list DetectedFace :=
  [face_at 100 100 300 300 [1; 0]%Q; face_at 400 100 500 200 [2; 0]%Q].

Definition twice_A_run : result RecognitionResult * World :=
  request frame_1280x960 twice_A (fun _ => nov9) (fun _ => false) 1 one_student.

Lemma recognize_marks_once_witness :
  NoDup (attendance_marked (result_or_empty (fst twice_A_run))) /\
  forall n, In n (attendance_marked (result_or_empty (fst twice_A_run))) ->
    exists sid, select_student_id n 1 (w_students one_student) = Some sid /\
                In (sid, "2026-11-09"%string) (map att_key (w_attendance (snd twice_A_run))).
Proof.
  apply (recognize_marks_once (fun _ => nov9) (fun _ => false) (fun _ => Some [])
           (fun _ => Some frame_1280x960) (fun f => f) (fun _ => twice_A) two_orthogonal
           "2026-11-09" "" 1 one_student).
  - split; [constructor | split; [constructor | reflexivity]].
  - intros n. reflexivity.
  - vm_compute. reflexivity.
Defined.
