(* ===== verification/Endpoints.v ===== *)
(** * The administrative read endpoints

    [get_attendance] (lines 188-203 of [src/face_recognition_service.py])
    lists a class's attendance joined with the students' names and
    classrooms, [ORDER BY a.date DESC, a.time DESC]; [get_students]
    (lines 205-218) lists a class's students; the pydantic model
    [AttendanceRecord] (lines 79-85) is declared but unused; [health_check] (lines
    230-233) is a constant.  The two database endpoints open a connection
    and close it in [finally], as [mark_attendance] does.

    SQL leaves the order of rows with equal sort keys unspecified; the
    specification [order_by_desc] admits every such order, and the model
    sorts with a stable insertion sort, one of them.  The theorems: the
    model's answer meets the specification (a permutation of the join,
    sorted), its rows are exactly the join's, with [DateFmt] the order is
    any two rows in chronological order, latest first (the sort key is
    transitive), and both endpoints change no table and release
    their connection on every path. *)

From Stdlib Require Import List String ZArith Lia Bool Sorted Permutation OrdersEx.
From S2P Require Import Prelude DateFmt Ledger.
Import ListNotations.

Local Open Scope Z_scope.
Local Open Scope py_scope.

(** A row of [get_attendance]: [s.name, s.classroom, a.date, a.time, a.status]. *)
Record AttendanceView : Type := {
  av_name : string; av_classroom : string; av_date : string; av_time : string;
  av_status : string
}.

(** The pydantic model [AttendanceRecord] (lines 79-85).  No endpoint
    uses it: [get_attendance] returns [dict(record)] of the rows of its
    query, which are [AttendanceView]s and have no [student_id]. *)
Record AttendanceRecord : Type := {
  ar_student_id : Z; ar_name : string; ar_classroom : string; ar_date : string;
  ar_time : string; ar_status : string
}.

(** A row of [get_students]: [id, name, classroom, face_embedding_path]. *)
Record StudentView : Type := {
  sv_id : Z; sv_name : string; sv_classroom : string; sv_face_path : string
}.

Definition attendance_view (s : Student) (a : AttRow) : AttendanceView :=
  {| av_name := st_name s; av_classroom := st_classroom s; av_date := at_date a;
     av_time := at_time a; av_status := at_status a |}.

(** [FROM attendance a JOIN students s ON a.student_id = s.id
    WHERE a.class_id = $1]. *)
Definition join_attendance (class_id : Z) (students : list Student) (rows : list AttRow)
  : list AttendanceView :=
  flat_map (fun a =>
              if Z.eqb (at_class a) class_id then
                map (fun s => attendance_view s a)
                    (filter (fun s => Z.eqb (st_id s) (at_student a)) students)
              else [])
           rows.

(** [v] comes no later than [u] under [ORDER BY date DESC, time DESC]. *)
Definition before_desc (v u : AttendanceView) : bool :=
  match String.compare (av_date v) (av_date u) with
  | Gt => true
  | Lt => false
  | Eq => match String.compare (av_time v) (av_time u) with Lt => false | _ => true end
  end.

Fixpoint insert_desc (v : AttendanceView) (l : list AttendanceView) : list AttendanceView :=
  match l with
  | [] => [v]
  | u :: l' => if before_desc v u then v :: l else u :: insert_desc v l'
  end.

Fixpoint sort_desc (l : list AttendanceView) : list AttendanceView :=
  match l with
  | [] => []
  | v :: l' => insert_desc v (sort_desc l')
  end.

(** What [ORDER BY a.date DESC, a.time DESC] promises of an answer [out]
    to a query whose unordered rows are [rows]. *)
Definition order_by_desc (rows out : list AttendanceView) : Prop :=
  Permutation rows out /\ Sorted (fun v u => before_desc v u = true) out.

(** [SELECT id, name, classroom, face_embedding_path FROM students
    WHERE class_id = $1]. *)
Definition student_view (s : Student) : StudentView :=
  {| sv_id := st_id s; sv_name := st_name s; sv_classroom := st_classroom s;
     sv_face_path := st_face_path s |}.

Definition select_class_students (class_id : Z) (students : list Student) : list StudentView :=
  map student_view (filter (fun s => Z.eqb (st_class s) class_id) students).

Section Endpoints.
Variable db_fails : nat -> bool.

(** Lines 188-203. *)
Definition get_attendance (class_id : Z) : st World (list AttendanceView) :=
  get_db_connection db_fails ;;
  try_finally
    (db_call db_fails (fun w => (sort_desc (join_attendance class_id (w_students w)
                                                            (w_attendance w)), w)))
    conn_close.

(** Lines 205-218. *)
Definition get_students (class_id : Z) : st World (list StudentView) :=
  get_db_connection db_fails ;;
  try_finally
    (db_call db_fails (fun w => (select_class_students class_id (w_students w), w)))
    conn_close.

End Endpoints.

(** Lines 230-233. *)
Definition health_check : st World (string * string) := ret ("healthy", "face-recognition")%string.

(** ** The order of [get_attendance] *)

Lemma compare_opp_lt (s s' : string) : String.compare s s' = Lt -> String.compare s' s = Gt.
Proof. intros H. rewrite String.compare_antisym, H. reflexivity. Qed.

Lemma compare_refl (s : string) : String.compare s s = Eq.
Proof. pose proof (String.compare_antisym s s). destruct (String.compare s s); easy. Qed.

Lemma compare_as_OT (s s' : string) : String_as_OT.compare s s' = String.compare s s'.
Proof. revert s'; induction s; destruct s'; cbn; reflexivity. Qed.

Lemma compare_lt_trans (a b c : string) :
  String.compare a b = Lt -> String.compare b c = Lt -> String.compare a c = Lt.
Proof. rewrite <- !compare_as_OT. apply String_as_OT.lt_strorder. Qed.

Lemma compare_gt_trans (a b c : string) :
  String.compare a b = Gt -> String.compare b c = Gt -> String.compare a c = Gt.
Proof.
  rewrite !(String.compare_antisym a), !(String.compare_antisym b), String.compare_antisym.
  destruct (String.compare b a) eqn:E1, (String.compare c b) eqn:E2; try discriminate.
  rewrite (compare_lt_trans _ _ _ E2 E1). reflexivity.
Qed.

Lemma compare_ge_trans (a b c : string) :
  String.compare a b <> Lt -> String.compare b c <> Lt -> String.compare a c <> Lt.
Proof.
  destruct (String.compare a b) eqn:E1, (String.compare b c) eqn:E2; try easy; intros _ _.
  - apply String.compare_eq_iff in E1, E2. subst. rewrite compare_refl. easy.
  - apply String.compare_eq_iff in E1. subst. rewrite E2. easy.
  - apply String.compare_eq_iff in E2. subst. rewrite E1. easy.
  - rewrite (compare_gt_trans _ _ _ E1 E2). easy.
Qed.

(** [before_desc] is total. *)
Lemma before_desc_total (v u : AttendanceView) : before_desc v u = false -> before_desc u v = true.
Proof.
  unfold before_desc. destruct (String.compare (av_date v) (av_date u)) eqn:Ed;
    try discriminate.
  - apply String.compare_eq_iff in Ed. rewrite Ed, compare_refl.
    intros Ht. unfold before_desc in *.
    destruct (String.compare (av_time v) (av_time u)) eqn:Et; try discriminate.
    rewrite (compare_opp_lt _ _ Et). reflexivity.
  - intros _. rewrite (compare_opp_lt _ _ Ed). reflexivity.
Qed.

Lemma before_desc_iff (v u : AttendanceView) :
  before_desc v u = true <->
  String.compare (av_date v) (av_date u) = Gt \/
  (av_date v = av_date u /\ String.compare (av_time v) (av_time u) <> Lt).
Proof.
  unfold before_desc. destruct (String.compare (av_date v) (av_date u)) eqn:E.
  - apply String.compare_eq_iff in E.
    destruct (String.compare (av_time v) (av_time u)); intuition congruence.
  - split; [discriminate|]. intros [H|[H _]]; [discriminate|].
    rewrite H, compare_refl in E. discriminate.
  - split; auto.
Qed.

(** [ORDER BY date DESC, time DESC] is transitive. *)
Lemma before_desc_trans (v u x : AttendanceView) :
  before_desc v u = true -> before_desc u x = true -> before_desc v x = true.
Proof.
  rewrite !before_desc_iff.
  intros [H1|[H1 T1]] [H2|[H2 T2]]; rewrite ?H1, ?H2 in *; eauto using compare_gt_trans, compare_ge_trans.
Qed.

Lemma insert_desc_perm v l : Permutation (v :: l) (insert_desc v l).
Proof.
  induction l as [|u l IH]; cbn; [reflexivity|].
  destruct (before_desc v u); [reflexivity|].
  etransitivity; [apply perm_swap | apply perm_skip, IH].
Qed.

Lemma insert_desc_sorted v l :
  Sorted (fun v u => before_desc v u = true) l ->
  Sorted (fun v u => before_desc v u = true) (insert_desc v l).
Proof.
  induction 1 as [|u l Hl IH Hd]; cbn; [repeat constructor|].
  destruct (before_desc v u) eqn:E; [constructor; [constructor|]; auto|].
  constructor; [exact IH|].
  destruct l as [|u' l]; cbn; [constructor; apply before_desc_total; exact E|].
  inversion Hd as [|? ? Hu]; subst.
  destruct (before_desc v u'); constructor; auto using before_desc_total.
Qed.

(** The model's [ORDER BY] meets its specification. *)
Lemma sort_desc_spec (l : list AttendanceView) : order_by_desc l (sort_desc l).
Proof.
  induction l as [|v l [Hp Hs]]; cbn; [split; constructor|]. split.
  - etransitivity; [apply perm_skip, Hp | apply insert_desc_perm].
  - apply insert_desc_sorted, Hs.
Qed.

(** The rows of the join: one per attendance row of the class and student
    whose id is the row's [student_id]. *)
Lemma join_attendance_iff class_id students rows v :
  In v (join_attendance class_id students rows) <->
  exists a s, In a rows /\ at_class a = class_id /\ In s students /\
              st_id s = at_student a /\ v = attendance_view s a.
Proof.
  unfold join_attendance. rewrite in_flat_map. split.
  - intros (a & Ha & H). destruct (Z.eqb_spec (at_class a) class_id); [|destruct H].
    apply in_map_iff in H as (s & <- & Hs). apply filter_In in Hs as [Hs Hid].
    apply Z.eqb_eq in Hid. exists a, s. auto.
  - intros (a & s & Ha & Hc & Hs & Hid & ->). exists a. split; [exact Ha|].
    rewrite Hc, Z.eqb_refl. apply (in_map (fun s0 => attendance_view s0 a)). apply filter_In. rewrite Hid, Z.eqb_refl. auto.
Qed.

(** The join, written as the nested loop over both tables that the SQL
    query denotes. *)
Lemma join_attendance_nested class_id students rows :
  join_attendance class_id students rows =
  flat_map (fun a => flat_map (fun s =>
      if Z.eqb (at_class a) class_id && Z.eqb (st_id s) (at_student a)
      then [attendance_view s a] else []) students) rows.
Proof.
  unfold join_attendance. apply flat_map_ext. intros a.
  destruct (Z.eqb (at_class a) class_id); cbn.
  - induction students as [|s ss IH]; cbn; [reflexivity|].
    destruct (Z.eqb (st_id s) (at_student a)); cbn; rewrite IH; reflexivity.
  - induction students as [|s ss IH]; cbn; auto.
Qed.

Lemma Sorted_weaken {A} (R R' : A -> A -> Prop) (l : list A) :
  (forall x y, R x y -> R' x y) -> Sorted R l -> Sorted R' l.
Proof.
  intros H. induction 1 as [|x l _ IH Hd]; constructor; [exact IH|].
  destruct Hd; constructor. auto.
Qed.

(** ** The endpoints *)

(** C20: [get_attendance] changes no table, releases its connection on every
    path, and when it answers, the answer is, up to the order of rows, the
    rows [(s.name, s.classroom, a.date, a.time, a.status)] of every pair
    of an attendance row [a] of the class and a student [s] with
    [a.student_id = s.id], ordered by date descending and, on equal
    dates, by time descending. *)
Theorem get_attendance_spec db_fails class_id w :
  let (r, w') := get_attendance db_fails class_id w in
  w_students w' = w_students w /\ w_attendance w' = w_attendance w /\
  w_next_id w' = w_next_id w /\ w_conns w' = w_conns w /\
  forall out, r = Ok out ->
    Permutation out
      (flat_map (fun a => flat_map (fun s =>
          if Z.eqb (at_class a) class_id && Z.eqb (st_id s) (at_student a)
          then [{| av_name := st_name s; av_classroom := st_classroom s; av_date := at_date a;
                   av_time := at_time a; av_status := at_status a |}]
          else []) (w_students w)) (w_attendance w)) /\
    Sorted (fun v u => String.compare (av_date v) (av_date u) = Gt \/
                       (av_date v = av_date u /\ String.compare (av_time v) (av_time u) <> Lt)) out.
Proof.
  unfold get_attendance. run_ledger db_fails;
    refine (conj eq_refl (conj eq_refl (conj eq_refl (conj eq_refl _))));
    intros o Ho; inversion Ho; subst;
    destruct (sort_desc_spec (join_attendance class_id (w_students w) (w_attendance w))) as [Hp Hs];
    split; [symmetry; rewrite <- join_attendance_nested; exact Hp
           | eapply Sorted_weaken; [intros v u; apply before_desc_iff | exact Hs]].
Qed.

(** C31: [get_students] changes no table, releases its connection on every
    path, and answers with exactly the students of the class. *)
Theorem get_students_spec db_fails class_id w :
  let (r, w') := get_students db_fails class_id w in
  w_students w' = w_students w /\ w_attendance w' = w_attendance w /\
  w_next_id w' = w_next_id w /\ w_conns w' = w_conns w /\
  forall out, r = Ok out ->
    forall sv, In sv out <-> exists s, In s (w_students w) /\ st_class s = class_id /\
                                       sv = student_view s.
Proof.
  unfold get_students. run_ledger db_fails;
    refine (conj eq_refl (conj eq_refl (conj eq_refl (conj eq_refl _))));
    intros o Ho; inversion Ho; subst; intros sv; unfold select_class_students;
    rewrite in_map_iff; split.
  - intros (s & <- & Hs). apply filter_In in Hs as [Hs Hc]. apply Z.eqb_eq in Hc. eauto.
  - intros (s & Hs & Hc & ->). exists s. split; [reflexivity|]. apply filter_In.
    rewrite Hc, Z.eqb_refl. auto.
Qed.

Lemma get_attendance_ok db_fails class_id w out w' :
  get_attendance db_fails class_id w = (Ok out, w') ->
  order_by_desc (join_attendance class_id (w_students w) (w_attendance w)) out.
Proof.
  unfold get_attendance. run_ledger db_fails; intros Ho; inversion Ho; apply sort_desc_spec.
Qed.

(** An element of a strongly sorted list is related to every later one. *)
Lemma StronglySorted_app_cons {A} (R : A -> A -> Prop) pre v mid u post :
  StronglySorted R (pre ++ v :: mid ++ u :: post) -> R v u.
Proof.
  induction pre as [|x pre IH]; cbn; intros H; inversion H as [|? ? Hs Hf]; subst; [|auto].
  rewrite Forall_forall in Hf. apply Hf, in_app_iff. right. left. reflexivity.
Qed.

(** On rows written by [mark_attendance], [before_desc] is the
    chronological order, latest first. *)
Lemma before_desc_chronological v u t t' :
  valid_date t -> valid_date t' -> valid_time t -> valid_time t' ->
  av_date v = strftime_date t -> av_date u = strftime_date t' ->
  av_time v = strftime_time t -> av_time u = strftime_time t' ->
  before_desc v u = true -> datetime_compare t t' <> Lt.
Proof.
  intros Hd Hd' Ht Ht' Hv Hu Hv' Hu'. unfold before_desc, datetime_compare.
  rewrite Hv, Hu, Hv', Hu'.
  rewrite strftime_date_order, strftime_time_order by assumption.
  destruct (lex _ _); [destruct (lex (Z.compare (hour t) _) _)|..]; easy.
Qed.

(** C19: [get_attendance] lists the most recent record first: of any two
    rows of its answer whose date and time were written by
    [mark_attendance] ([strftime_date] and [strftime_time] of valid
    instants), the earlier row of the listing is of the same instant or a
    later one, wherever the two rows are in the listing. *)
Theorem get_attendance_recent_first db_fails class_id w out w' pre v mid u post t t' :
  get_attendance db_fails class_id w = (Ok out, w') ->
  out = pre ++ v :: mid ++ u :: post ->
  valid_date t -> valid_date t' -> valid_time t -> valid_time t' ->
  av_date v = strftime_date t -> av_date u = strftime_date t' ->
  av_time v = strftime_time t -> av_time u = strftime_time t' ->
  datetime_compare t t' <> Lt.
Proof.
  intros Hr -> Hd Hd' Ht Ht' Hv Hu Hv' Hu'.
  destruct (get_attendance_ok db_fails class_id w _ w' Hr) as [_ Hsort].
  apply Sorted_StronglySorted in Hsort; [|exact before_desc_trans].
  apply StronglySorted_app_cons in Hsort.
  exact (before_desc_chronological v u t t' Hd Hd' Ht Ht' Hv Hu Hv' Hu' Hsort).
Qed.

(** ** A listing *)

Definition nov8 : DateTime :=
  {| year := 2026; month := 11; day := 8; hour := 9; minute := 0; second := 0 |}.

(** Student [A] marked on November 8 and 9, the older row first in the table. *)
Definition two_days : World :=
  mkWorld (w_students one_student)
    [att_row 1 7 1 (strftime_date nov8) (strftime_time nov8) "Present";
     att_row 2 7 1 (strftime_date nov9) (strftime_time nov9) "Present"] 3 0 0 0.

Definition view_of (t : DateTime) : AttendanceView :=
  {| av_name := "A"; av_classroom := "R101"; av_date := strftime_date t;
     av_time := strftime_time t; av_status := "Present" |}.

(** Three days of [A]; the answer lists November 9, then 8, then 7. *)
Definition nov7 : DateTime :=
  {| year := 2026; month := 11; day := 7; hour := 8; minute := 30; second := 0 |}.

Definition three_days : World :=
  mkWorld (w_students one_student)
    [att_row 1 7 1 (strftime_date nov8) (strftime_time nov8) "Present";
     att_row 2 7 1 (strftime_date nov7) (strftime_time nov7) "Present";
     att_row 3 7 1 (strftime_date nov9) (strftime_time nov9) "Present"] 4 0 0 0.

Lemma get_attendance_recent_first_witness :
  datetime_compare nov9 nov7 <> Lt.
Proof.
  apply (get_attendance_recent_first (fun _ => false) 1 three_days
           [view_of nov9; view_of nov8; view_of nov7]
           (mkWorld (w_students three_days) (w_attendance three_days) 4 0 2 0) [] (view_of nov9)
           [view_of nov8] (view_of nov7) [] nov9 nov7);
    [vm_compute; reflexivity | reflexivity | unfold valid_date; cbn; lia
    | unfold valid_date; cbn; lia | unfold valid_time; cbn; lia | unfold valid_time; cbn; lia
    | reflexivity | reflexivity | reflexivity | reflexivity].
Defined.
