(* ===== verification/Concurrency.v ===== *)
(** * Concurrent requests on the ledger

    [mark_attendance] is a coroutine: every [await] (the connection, the
    two [fetchval]s, the [execute] and [close]) hands control back to the
    event loop, which may run other requests' coroutines before resuming
    it.  The code between two [await]s runs without interruption.  This
    file models one coroutine as a program counter [pc] that names the
    next [await], a step [step_thread] that performs that round trip and
    the synchronous code up to the next one, and the event loop as a
    nondeterministic choice of a thread to resume ([sstep]), with an
    executable runner for a given schedule ([run_sched]).

    The model is checked against [Ledger]: a coroutine resumed five times
    with nothing in between is [mark_attendance] ([run_thread_refines]).
    The theorems: under every interleaving the open connections are the
    initial ones plus the coroutines holding one ([reachable_conns]), so
    none is leaked when all have finished; rows are only appended, one per
    coroutine that returns [True] ([interleaving_rows_reported]); but the
    check-then-insert of lines 108-121 is not atomic, and in every world
    where a student is known and not yet marked, two requests for that
    student interleaved at their [await]s both insert a row for the same
    day ([race_double_insert]). *)

From Stdlib Require Import List String ZArith Lia Bool Relations.
From S2P Require Import Prelude DateFmt Ledger.
Import ListNotations.

Local Open Scope Z_scope.
Local Open Scope py_scope.

(** The [await] a coroutine of [mark_attendance] is suspended at. *)
Inductive pc : Type :=
| PConnect                                  (** [await get_db_connection()] *)
| PStudent                                  (** the student query *)
| PExisting (sid : Z) (today : string)      (** the attendance query *)
| PInsert (sid : Z) (today now : string)    (** the insert *)
| PClose (r : result bool)                  (** [await conn.close()] in [finally] *)
| PDone (r : result bool).                  (** returned or raised *)

Record thread : Type := Thread { th_name : string; th_class : Z; th_pc : pc }.

Section Interleaving.

Variable clock : nat -> DateTime.
Variable db_fails : nat -> bool.

(** Resume a coroutine: the round trip it waits for, then its code up to
    the next [await]. *)
Definition step_thread (name : string) (class_id : Z) (p : pc) (w : World) : pc * World :=
  match p with
  | PConnect =>
      match get_db_connection db_fails w with
      | (Ok _, w1) => (PStudent, w1)
      | (Err e, w1) => (PDone (Err e), w1)
      end
  | PStudent =>
      match db_call db_fails (fun w => (select_student_id name class_id (w_students w), w)) w with
      | (Err e, w1) => (PClose (Err e), w1)
      | (Ok None, w1) => (PClose (Ok false), w1)
      | (Ok (Some sid), w1) =>
          if Z.eqb sid 0 then (PClose (Ok false), w1) else
          match datetime_now clock w1 with
          | (Ok t1, w2) => (PExisting sid (strftime_date t1), w2)
          | (Err e, w2) => (PClose (Err e), w2)
          end
      end
  | PExisting sid today =>
      match db_call db_fails (fun w => (select_attendance_id sid today (w_attendance w), w)) w with
      | (Err e, w1) => (PClose (Err e), w1)
      | (Ok existing, w1) =>
          if truthy existing then (PClose (Ok false), w1) else
          match datetime_now clock w1 with
          | (Ok t2, w2) => (PInsert sid today (strftime_time t2), w2)
          | (Err e, w2) => (PClose (Err e), w2)
          end
      end
  | PInsert sid today now =>
      match db_call db_fails (fun w => (tt, insert_attendance sid class_id today now "Present" w)) w with
      | (Err e, w1) => (PClose (Err e), w1)
      | (Ok _, w1) => (PClose (Ok true), w1)
      end
  | PClose r =>
      match conn_close w with
      | (Ok _, w1) => (PDone r, w1)
      | (Err e, w1) => (PDone (Err e), w1)
      end
  | PDone r => (PDone r, w)
  end.

Definition is_done (p : pc) : bool := match p with PDone _ => true | _ => false end.

(** A coroutine run alone for at most [n] resumptions. *)
Fixpoint run_thread (n : nat) (name : string) (class_id : Z) (p : pc) (w : World) : pc * World :=
  match n with
  | O => (p, w)
  | S n' =>
      if is_done p then (p, w) else
      let (p', w') := step_thread name class_id p w in run_thread n' name class_id p' w'
  end.

Fixpoint set_nth {A} (i : nat) (l : list A) (x : A) : list A :=
  match l, i with
  | [], _ => []
  | _ :: l', O => x :: l'
  | y :: l', S i' => y :: set_nth i' l' x
  end.

(** The event loop resumes thread [i], if it is still running. *)
Definition step_at (i : nat) (ts : list thread) (w : World) : option (list thread * World) :=
  match nth_error ts i with
  | Some t =>
      if is_done (th_pc t) then None else
      let (p', w') := step_thread (th_name t) (th_class t) (th_pc t) w in
      Some (set_nth i ts (Thread (th_name t) (th_class t) p'), w')
  | None => None
  end.

(** A schedule: the threads the event loop resumes, in order (a finished
    or absent thread is skipped). *)
Fixpoint run_sched (sched : list nat) (ts : list thread) (w : World) : list thread * World :=
  match sched with
  | [] => (ts, w)
  | i :: rest =>
      match step_at i ts w with
      | Some (ts', w') => run_sched rest ts' w'
      | None => run_sched rest ts w
      end
  end.

(** Any resumption the event loop may choose. *)
Inductive sstep : list thread * World -> list thread * World -> Prop :=
| sstep_at i ts w ts' w' : step_at i ts w = Some (ts', w') -> sstep (ts, w) (ts', w').

Definition reachable : list thread * World -> list thread * World -> Prop :=
  clos_refl_trans _ sstep.

End Interleaving.

(** ** A coroutine run alone *)

(** Resumed five times with nothing in between, a coroutine does
    exactly what [mark_attendance] does: same result, same world, for
    every clock, database fault pattern and initial world. *)
Theorem run_thread_refines clock db_fails name class_id w :
  run_thread clock db_fails 5 name class_id PConnect w =
  (PDone (fst (mark_attendance clock db_fails name class_id w)),
   snd (mark_attendance clock db_fails name class_id w)).
Proof.
  unfold run_thread, step_thread, is_done. run_ledger db_fails; reflexivity.
Qed.

(** ** Connections under every interleaving *)

(** Whether a coroutine at [p] holds an open connection. *)
Definition is_open (p : pc) : nat :=
  match p with PConnect | PDone _ => 0 | _ => 1 end.

(** The sum of a weight of the coroutines' program counters. *)
Definition weight (f : pc -> nat) (ts : list thread) : nat := list_sum (map (fun t => f (th_pc t)) ts).

Definition count_open (ts : list thread) : nat := weight is_open ts.

(** The open connections are those of the start plus one per coroutine
    holding a connection. *)
Definition conns_inv (c0 : nat) (s : list thread * World) : Prop :=
  w_conns (snd s) = (c0 + count_open (fst s))%nat.

Lemma weight_cons f t ts : weight f (t :: ts) = (f (th_pc t) + weight f ts)%nat.
Proof. reflexivity. Qed.

(** Resuming thread [i] changes the weight by the change of its own. *)
Lemma weight_set_nth f i ts t t' :
  nth_error ts i = Some t ->
  (weight f (set_nth i ts t') + f (th_pc t) = weight f ts + f (th_pc t'))%nat.
Proof.
  revert i. induction ts as [|u ts IH]; intros [|i] H; cbn [set_nth nth_error] in *;
    try discriminate; rewrite ?weight_cons in *.
  - injection H as ->. lia.
  - specialize (IH i H). lia.
Qed.

Lemma weight_nth_le f i ts t :
  nth_error ts i = Some t -> (f (th_pc t) <= weight f ts)%nat.
Proof.
  revert i. induction ts as [|u ts IH]; intros [|i] H; cbn [nth_error] in *;
    try discriminate; rewrite ?weight_cons in *.
  - injection H as ->. lia.
  - specialize (IH i H). lia.
Qed.

Lemma weight_all_zero f (ts : list thread) :
  Forall (fun t => f (th_pc t) = 0%nat) ts -> weight f ts = 0%nat.
Proof. induction 1; [reflexivity | rewrite weight_cons; lia]. Qed.

Lemma step_thread_conns clock db_fails name class_id p w :
  (is_open p <= w_conns w)%nat ->
  (w_conns (snd (step_thread clock db_fails name class_id p w)) + is_open p =
   w_conns w + is_open (fst (step_thread clock db_fails name class_id p w)))%nat.
Proof. intros H. destruct p; unfold step_thread; run_ledger db_fails; cbn in *; lia. Qed.

(** Inverting one resumption of the event loop. *)
Lemma sstep_inv clock db_fails ts w ts' w' :
  sstep clock db_fails (ts, w) (ts', w') ->
  exists i t, nth_error ts i = Some t /\ is_done (th_pc t) = false /\
    let (p', w1) := step_thread clock db_fails (th_name t) (th_class t) (th_pc t) w in
    ts' = set_nth i ts (Thread (th_name t) (th_class t) p') /\ w' = w1.
Proof.
  intros H. inversion H as [i ? ? ? ? E]; subst. unfold step_at in E.
  destruct (nth_error ts i) as [t|] eqn:Ht; [|discriminate].
  destruct (is_done (th_pc t)) eqn:Hd; [discriminate|].
  exists i, t. split; [exact Ht | split; [exact Hd|]].
  destruct (step_thread _ _ _ _ _ _) as [p' w1]. injection E as <- <-. auto.
Qed.

Lemma sstep_conns clock db_fails c0 s s' :
  sstep clock db_fails s s' -> conns_inv c0 s -> conns_inv c0 s'.
Proof.
  destruct s as [ts w], s' as [ts' w']. intros H. unfold conns_inv; cbn [fst snd].
  apply sstep_inv in H as (i & t & Ht & _ & H).
  pose proof (step_thread_conns clock db_fails (th_name t) (th_class t) (th_pc t) w) as Hs.
  destruct (step_thread clock db_fails (th_name t) (th_class t) (th_pc t) w) as [p' w1].
  destruct H as [-> ->]. intros Hinv. cbn [fst snd] in Hs. unfold count_open in *.
  pose proof (weight_nth_le is_open i ts t Ht).
  pose proof (weight_set_nth is_open i ts t (Thread (th_name t) (th_class t) p') Ht).
  cbn [th_pc] in *. lia.
Qed.

Lemma reachable_conns clock db_fails c0 s s' :
  reachable clock db_fails s s' -> conns_inv c0 s -> conns_inv c0 s'.
Proof. induction 1; eauto using sstep_conns. Qed.

Lemma done_not_open (p : pc) : is_done p = true -> is_open p = 0%nat.
Proof. destruct p; cbn; congruence. Qed.

(** C18: no connection leaks under any interleaving: from coroutines that
    have not started, every state the event loop can reach in which all
    of them have finished has the open connections it started with,
    whatever the clock and the database faults. *)
Theorem interleaving_releases_connections clock db_fails ts w ts' w' :
  reachable clock db_fails (ts, w) (ts', w') ->
  Forall (fun t => th_pc t = PConnect) ts ->
  Forall (fun t => is_done (th_pc t) = true) ts' ->
  w_conns w' = w_conns w.
Proof.
  intros Hr H0 H1.
  assert (Hi : conns_inv (w_conns w) (ts, w)).
  { unfold conns_inv. cbn [fst snd]. unfold count_open; rewrite weight_all_zero; [lia|].
    eapply Forall_impl; [|exact H0]. intros t ->. reflexivity. }
  apply (reachable_conns _ _ _ _ _ Hr) in Hi. unfold conns_inv in Hi. cbn [fst snd] in Hi.
  unfold count_open in Hi; rewrite weight_all_zero in Hi; [lia|].
  eapply Forall_impl; [|exact H1]. intros t. apply done_not_open.
Qed.

(** A schedule's run is an interleaving the event loop may choose. *)
Lemma run_sched_reachable clock db_fails sched : forall ts w,
  reachable clock db_fails (ts, w) (run_sched clock db_fails sched ts w).
Proof.
  induction sched as [|i rest IH]; intros ts w; cbn; [apply rt_refl|].
  destruct (step_at clock db_fails i ts w) as [[ts' w']|] eqn:E; [|apply IH].
  eapply rt_trans; [apply rt_step; econstructor; exact E | apply IH].
Qed.

(** All coroutines have finished. *)
Definition all_done (ts : list thread) : Prop := Forall (fun t => is_done (th_pc t) = true) ts.

(** ** Rows under every interleaving *)

(** Whether a coroutine at [p] has inserted its row: only the insert
    leads to [Ok true], and [close] does not change the result. *)
Definition inserted (p : pc) : nat :=
  match p with PClose r | PDone r => reported r | _ => 0 end.

(** The attendance table is the start's rows followed by one row per
    coroutine that has inserted. *)
Definition rows_inv (a0 : list AttRow) (s : list thread * World) : Prop :=
  exists added, w_attendance (snd s) = (a0 ++ added)%list /\ List.length added = weight inserted (fst s).

Lemma step_thread_rows clock db_fails name class_id p w :
  exists added,
    w_attendance (snd (step_thread clock db_fails name class_id p w)) = (w_attendance w ++ added)%list /\
    (List.length added + inserted p = inserted (fst (step_thread clock db_fails name class_id p w)))%nat.
Proof.
  destruct p; unfold step_thread; run_ledger db_fails;
    first [ exists []; rewrite app_nil_r; split; [reflexivity | cbn; lia]
          | eexists [_]; split; [reflexivity | cbn; lia] ].
Qed.

Lemma sstep_rows clock db_fails a0 s s' :
  sstep clock db_fails s s' -> rows_inv a0 s -> rows_inv a0 s'.
Proof.
  destruct s as [ts w], s' as [ts' w']. intros H (added & Ha & Hl). cbn [fst snd] in *.
  apply sstep_inv in H as (i & t & Ht & _ & H).
  destruct (step_thread_rows clock db_fails (th_name t) (th_class t) (th_pc t) w) as (more & Hm & Hn).
  destruct (step_thread clock db_fails (th_name t) (th_class t) (th_pc t) w) as [p' w1].
  destruct H as [Hts Hw]. subst ts' w'. cbn [fst snd] in *. exists (added ++ more)%list.
  cbn [fst snd]. rewrite Hm, Ha, <- app_assoc, length_app. split; [reflexivity|].
  pose proof (weight_set_nth inserted i ts t (Thread (th_name t) (th_class t) p') Ht).
  cbn [th_pc] in *. lia.
Qed.

Lemma reachable_rows clock db_fails a0 s s' :
  reachable clock db_fails s s' -> rows_inv a0 s -> rows_inv a0 s'.
Proof. induction 1; eauto using sstep_rows. Qed.

(** The coroutines that returned [True]. *)
Definition count_true (ts : list thread) : nat :=
  List.length (filter (fun t => match th_pc t with PDone (Ok true) => true | _ => false end) ts).

Lemma weight_inserted_done ts : all_done ts -> weight inserted ts = count_true ts.
Proof.
  induction 1 as [|t ts Ht _ IH]; [reflexivity|]. rewrite weight_cons. unfold count_true in *.
  cbn [filter]. destruct (th_pc t) as [| | | |r|[[|]|]]; cbn in *; try discriminate; lia.
Qed.

(** C11: Under every interleaving of requests that have not started, rows
    are only appended to the attendance table, and when all requests have
    finished the rows appended are exactly as many as the requests that
    returned [True]: a caller told [False] or answered with an error
    wrote nothing, and each caller told [True] wrote one row. *)
Theorem interleaving_rows_reported clock db_fails ts w ts' w' :
  reachable clock db_fails (ts, w) (ts', w') ->
  Forall (fun t => th_pc t = PConnect) ts ->
  all_done ts' ->
  exists added, w_attendance w' = (w_attendance w ++ added)%list /\ List.length added = count_true ts'.
Proof.
  intros Hr H0 H1.
  assert (Hi : rows_inv (w_attendance w) (ts, w)).
  { exists []. rewrite app_nil_r. split; [reflexivity|]. cbn [fst].
    rewrite weight_all_zero; [reflexivity|]. eapply Forall_impl; [|exact H0]. intros t ->. reflexivity. }
  destruct (reachable_rows _ _ _ _ _ Hr Hi) as (added & Ha & Hl). cbn [fst snd] in *.
  exists added. rewrite <- weight_inserted_done by exact H1. auto.
Qed.

(** ** The check-then-insert race *)

(** Two requests that recognise the same student (two frames submitted
    together, or two detections in flight at once). *)
Definition two_requests (name : string) (class_id : Z) : list thread :=
  [Thread name class_id PConnect; Thread name class_id PConnect].

(** The event loop alternates between them at every [await]. *)
Definition alternate : list nat := [0; 1; 0; 1; 0; 1; 0; 1; 0; 1]%nat.

(** The keys are distinct, so each occurs at most once. *)
Lemma count_key_NoDup sid d rows : NoDup (map att_key rows) -> (count_key sid d rows <= 1)%nat.
Proof.
  induction rows as [|r rows IH]; cbn [map]; intros H; [cbn; lia|].
  inversion H as [|? ? Hr Hnd]; subst. unfold count_key in *; cbn [filter].
  destruct (Z.eqb_spec (at_student r) sid), (String.eqb_spec (at_date r) d); cbn;
    try (apply IH; exact Hnd).
  destruct (filter _ rows) as [|x l] eqn:E; [cbn; lia|]. exfalso. apply Hr.
  assert (Hx : In x (filter (fun r => (at_student r =? sid)%Z && (at_date r =? d)%string) rows))
    by (rewrite E; left; reflexivity).
  apply filter_In in Hx as [Hx Hk]. apply andb_true_iff in Hk as [Hk1 Hk2].
  apply Z.eqb_eq in Hk1. apply String.eqb_eq in Hk2.
  apply in_map_iff. exists x. unfold att_key. split; [congruence | exact Hx].
Qed.

(** The alternating schedule, evaluated on any world in which the student
    is known and not yet marked. *)
Lemma alternate_both_insert clock name class_id sid w :
  ledger_inv w ->
  select_student_id name class_id (w_students w) = Some sid -> sid <> 0 ->
  strftime_date (clock (S (w_tick w))) = strftime_date (clock (w_tick w)) ->
  truthy (select_attendance_id sid (strftime_date (clock (w_tick w))) (w_attendance w)) = false ->
  let (ts, w') := run_sched clock (fun _ => false) alternate (two_requests name class_id) w in
  map th_pc ts = [PDone (Ok true); PDone (Ok true)] /\
  count_key sid (strftime_date (clock (w_tick w))) (w_attendance w') = 2%nat.
Proof.
  intros (Hnd & Hids & Hnext) Hs Hz Hday He.
  assert (Hpos : Forall (fun r => 0 < at_id r) (w_attendance w))
    by (eapply Forall_impl; [|exact Hids]; simpl; lia).
  assert (Hnone := select_attendance_none _ _ _ Hpos He).
  unfold run_sched, alternate, two_requests, step_at.
  unfold step_thread, get_db_connection, db_call, conn_close, datetime_now. run_st.
  apply Z.eqb_neq in Hz.
  repeat (cbn; rewrite ?Hs, ?Hz, ?Hday, ?He).
  split; [reflexivity|].
  unfold count_key. rewrite !filter_app, (filter_find_none _ (w_attendance w)) by exact Hnone.
  cbn. rewrite Z.eqb_refl, String.eqb_refl. reflexivity.
Qed.

(** C7: the race.  In every world that keeps the ledger invariant, two
    requests for a known student not yet marked today, interleaved at
    their [await]s with the database up and both clock reads on the same
    day, both run their attendance query before either inserts, both see
    no row, both insert and both return [True]: the table then holds two
    rows for the student and day, and the invariant that sequential runs
    keep is broken. *)
Theorem race_double_insert clock name class_id sid w :
  ledger_inv w ->
  select_student_id name class_id (w_students w) = Some sid -> sid <> 0 ->
  strftime_date (clock (S (w_tick w))) = strftime_date (clock (w_tick w)) ->
  truthy (select_attendance_id sid (strftime_date (clock (w_tick w))) (w_attendance w)) = false ->
  let (ts, w') := run_sched clock (fun _ => false) alternate (two_requests name class_id) w in
  map th_pc ts = [PDone (Ok true); PDone (Ok true)] /\
  count_key sid (strftime_date (clock (w_tick w))) (w_attendance w') = 2%nat /\
  ~ ledger_inv w'.
Proof.
  intros Hinv Hs Hz Hday He.
  pose proof (alternate_both_insert clock name class_id sid w Hinv Hs Hz Hday He) as H.
  destruct (run_sched clock (fun _ => false) alternate (two_requests name class_id) w)
    as [ts w'].
  destruct H as [H1 H2]. split; [exact H1 | split; [exact H2|]].
  intros (Hnd & _). pose proof (count_key_NoDup sid (strftime_date (clock (w_tick w))) _ Hnd). lia.
Qed.

Lemma race_double_insert_witness :
  let (ts, w') := run_sched (fun _ => nov9) (fun _ => false) alternate (two_requests "A" 1)
                    one_student in
  map th_pc ts = [PDone (Ok true); PDone (Ok true)] /\
  count_key 7 (strftime_date nov9) (w_attendance w') = 2%nat /\ ~ ledger_inv w'.
Proof.
  apply (race_double_insert (fun _ => nov9) "A" 1 7 one_student).
  - split; [constructor | split; [constructor | reflexivity]].
  - reflexivity.
  - discriminate.
  - reflexivity.
  - vm_compute. reflexivity.
Defined.

Lemma interleaving_releases_connections_witness :
  w_conns (snd (run_sched (fun _ => nov9) (fun _ => false) alternate (two_requests "A" 1)
                  one_student)) = w_conns one_student.
Proof.
  apply (interleaving_releases_connections (fun _ => nov9) (fun _ => false) (two_requests "A" 1)
           one_student
           (fst (run_sched (fun _ => nov9) (fun _ => false) alternate (two_requests "A" 1)
                   one_student))).
  - rewrite <- surjective_pairing. apply run_sched_reachable.
  - repeat constructor.
  - vm_compute. repeat constructor.
Defined.

Lemma interleaving_rows_reported_witness :
  exists added,
    w_attendance (snd (run_sched (fun _ => nov9) (fun _ => false) alternate (two_requests "A" 1)
                         one_student)) = (w_attendance one_student ++ added)%list /\
    List.length added = count_true (fst (run_sched (fun _ => nov9) (fun _ => false) alternate
                                           (two_requests "A" 1) one_student)).
Proof.
  apply (interleaving_rows_reported (fun _ => nov9) (fun _ => false) (two_requests "A" 1)
           one_student
           (fst (run_sched (fun _ => nov9) (fun _ => false) alternate (two_requests "A" 1)
                   one_student))).
  - rewrite <- surjective_pairing. apply run_sched_reachable.
  - repeat constructor.
  - vm_compute. repeat constructor.
Defined.
