(* ===== verification/Enrollment.v ===== *)
(** * Building the face database at startup

    Lines 44-76 of [src/face_recognition_service.py].  When the cache files
    exist the embeddings and labels are loaded from them; otherwise every
    sub-folder [cls] of the dataset folder is a person, every [.jpg] or
    [.png] file in it (extension compared case-insensitively) is read, the
    detector runs on it, and when it finds a face the one with the highest
    detection score ([max(faces, key=lambda f: f.det_score)], the first
    such face on ties) contributes its normalised embedding, labelled
    [cls].  The rows are stacked ([np.vstack]), the dimension is read off
    and the flat inner-product index is built.

    The file system ([os.listdir], [os.path.isdir], [os.path.join]), the
    image reader ([cv2.imread]) and the detector are section variables;
    the two cache files are the state [CacheFS] of [startup], with
    [np.save]/[np.load] and [pickle.dump]/[pickle.load] storing and
    returning their values unchanged.  The prints are not modelled.

    The theorems: [py_max_det_score] is Python's [max] (a face of highest
    score, every earlier face strictly lower), each row of the database
    comes from one image of its person's folder, a person has exactly one
    row per readable image with a face (not one row), the database is a
    well-formed index when the detector's embeddings are non-zero and of
    one length, an empty dataset raises at startup, the cache files load
    back as the index that was built, and once they exist the dataset
    folder is never read again. *)

From Stdlib Require Import List String Ascii ZArith QArith Lia Bool.
From S2P Require Import Prelude Radical Vectors FlatIndex Reconciler Orchestrator.
Import ListNotations.

Local Open Scope Q_scope.

(** [str.lower] on ASCII letters. *)
Definition lower_ascii (c : ascii) : ascii :=
  let n := nat_of_ascii c in
  if andb (Nat.leb 65 n) (Nat.leb n 90) then ascii_of_nat (n + 32) else c.

Fixpoint lower (s : string) : string :=
  match s with
  | EmptyString => EmptyString
  | String c s' => String (lower_ascii c) (lower s')
  end.

(** [str.endswith]. *)
Definition endswith (s suffix : string) : bool :=
  let n := String.length s in
  let m := String.length suffix in
  andb (Nat.leb m n) (String.eqb (substring (n - m) m s) suffix).

(** [img_file.lower().endswith(('.jpg', '.png'))] (line 56). *)
Definition image_ext (f : string) : bool :=
  orb (endswith (lower f) ".jpg") (endswith (lower f) ".png").

(** [max(faces, key=lambda f: f.det_score)] on a non-empty list: Python
    replaces the running maximum only by a strictly greater key. *)
Definition py_max_det_score (f : DetectedFace) (fs : list DetectedFace) : DetectedFace :=
  fold_left (fun best g => if Qltb (f_det_score best) (f_det_score g) then g else best) fs f.


(** ** Python's [max] *)

Section PyMax.

Lemma py_max_fold (l : list DetectedFace) : forall pre0 best mid,
  (forall g, In g pre0 -> f_det_score g < f_det_score best) -> (forall g, In g mid -> f_det_score g <= f_det_score best) ->
  exists pre post,
    pre0 ++ best :: mid ++ l = pre ++ py_max_det_score best l :: post /\
    (forall g, In g pre -> f_det_score g < f_det_score (py_max_det_score best l)) /\
    (forall g, In g post -> f_det_score g <= f_det_score (py_max_det_score best l)).
Proof.
  unfold py_max_det_score.
  induction l as [|g l IH]; intros pre0 best mid Hpre Hmid; cbn [fold_left].
  - exists pre0, mid. rewrite app_nil_r. auto.
  - destruct (Qltb_spec (f_det_score best) (f_det_score g)) as [Hlt|Hge].
    + destruct (IH (pre0 ++ best :: mid) g []) as (pre & post & E & H1 & H2).
      * intros h Hh. apply in_app_or in Hh as [Hh|[<-|Hh]]; auto.
        -- eapply Qlt_trans; eauto.
        -- eapply Qle_lt_trans; eauto.
      * intros h [].
      * exists pre, post. split; [rewrite <- E, <- app_assoc; reflexivity | auto].
    + apply Qnot_lt_le in Hge.
      destruct (IH pre0 best (mid ++ [g])) as (pre & post & E & H1 & H2); auto.
      * intros h Hh. apply in_app_or in Hh as [Hh|[<-|[]]]; auto.
      * exists pre, post. split; [rewrite <- E, <- app_assoc; reflexivity | auto].
Qed.

(** [max(faces, key=det_score)] returns a face of the list whose score no
    face exceeds, and every face before it scores strictly lower: the
    first face of highest score. *)
Lemma py_max_det_score_spec f fs :
  exists pre post, f :: fs = pre ++ py_max_det_score f fs :: post /\
    (forall g, In g pre -> f_det_score g < f_det_score (py_max_det_score f fs)) /\
    (forall g, In g post -> f_det_score g <= f_det_score (py_max_det_score f fs)).
Proof. apply (py_max_fold fs [] f []); intros g []. Qed.
End PyMax.

Lemma py_max_det_score_max f fs g :
  In g (f :: fs) -> f_det_score g <= f_det_score (py_max_det_score f fs).
Proof.
  destruct (py_max_det_score_spec f fs) as (pre & post & E & H1 & H2). rewrite E.
  intros Hg. apply in_app_or in Hg as [Hg|[<-|Hg]]; auto using Qlt_le_weak, Qle_refl.
Qed.

Lemma py_max_det_score_in f fs : In (py_max_det_score f fs) (f :: fs).
Proof.
  destruct (py_max_det_score_spec f fs) as (pre & post & E & _). rewrite E.
  apply in_or_app. right. left. reflexivity.
Qed.

(** The two cache files of lines 40-42: [embeddings.npy] holds the
    stacked array (its width and rows), [labels.pkl] the labels; [None]
    is a file that does not exist. *)
Record CacheFS : Type := {
  emb_npy : option (nat * list nvec);
  labels_pkl : option (list string)
}.

(** [os.path.exists(emb_file) and os.path.exists(labels_file)], and what
    [np.load] and [pickle.load] then return. *)
Definition cache_contents (fs : CacheFS) : option (nat * list nvec * list string) :=
  match emb_npy fs, labels_pkl fs with
  | Some (d, rows), Some labels => Some (d, rows, labels)
  | _, _ => None
  end.

(** [np.save(emb_file, embeddings_array)] and [pickle.dump(labels, f)]
    (lines 68-70). *)
Definition save_cache (idx : FaceIndex) : CacheFS :=
  {| emb_npy := Some (fi_dim idx, fi_vectors idx); labels_pkl := Some (fi_labels idx) |}.

Section Enroll.

Variable listdir : string -> list string.
Variable isdir : string -> bool.
Variable path_join : string -> string -> string.
Variable imread : string -> option Frame.
Variable face_app_get : Frame -> list DetectedFace.

(** Lines 56-65 for one file of a person's folder: the rows it appends to
    [embeddings] and [labels], paired. *)
Definition enroll_image (cls_folder cls img_file : string) : list (nvec * string) :=
  if image_ext img_file then
    match imread (path_join cls_folder img_file) with
    | None => []
    | Some img_bgr =>
        match face_app_get img_bgr with
        | [] => []
        | f :: fs => [(normalize (f_embedding (py_max_det_score f fs)), cls)]
        end
    end
  else [].

(** Lines 51-65 for one entry of the dataset folder. *)
Definition enroll_class (dataset_path cls : string) : list (nvec * string) :=
  let cls_folder := path_join dataset_path cls in
  if isdir cls_folder then flat_map (enroll_image cls_folder cls) (listdir cls_folder) else [].

(** Lines 50-65: the rows, in the order they are appended. *)
Definition build_database (dataset_path : string) : list (nvec * string) :=
  flat_map (enroll_class dataset_path) (listdir dataset_path).

(** Lines 44-76: the cache, when present, holds the stacked array (its
    width and rows) and the labels; otherwise the database is built, and
    [np.vstack] raises on an empty list. *)
Definition load_index (cached : option (nat * list nvec * list string)) (dataset_path : string)
  : result FaceIndex :=
  match cached with
  | Some (d, rows, labels) => Ok {| fi_dim := d; fi_vectors := rows; fi_labels := labels |}
  | None =>
      let db := build_database dataset_path in
      make_index (map fst db) (map snd db)
  end.


(** Lines 44-76 with the cache files as state: load them when both
    exist; otherwise build, stack (raising on an empty list), write both
    files and build the index. *)
Definition startup (dataset_path : string) : st CacheFS FaceIndex :=
  fun fs =>
    match cache_contents fs with
    | Some c => (load_index (Some c) dataset_path, fs)
    | None =>
        match load_index None dataset_path with
        | Ok idx => (Ok idx, save_cache idx)
        | Err e => (Err e, fs)
        end
    end.

(** ** Where the rows come from *)

Lemma enroll_image_row cls_folder cls img_file v l :
  In (v, l) (enroll_image cls_folder cls img_file) ->
  l = cls /\ image_ext img_file = true /\
  exists img f fs, imread (path_join cls_folder img_file) = Some img /\
    face_app_get img = f :: fs /\ v = normalize (f_embedding (py_max_det_score f fs)).
Proof.
  unfold enroll_image. destruct (image_ext img_file); [|intros []].
  destruct (imread _) as [img|]; [|intros []].
  destruct (face_app_get img) as [|f fs] eqn:Hf; [intros []|].
  intros [H|[]]. injection H as <- <-. split; [reflexivity | split; [reflexivity|]]. eauto 6.
Qed.

(** C24: Every row of the database is labelled with a directory of the dataset
    folder and is the normalised embedding of the highest-scoring face the
    detector finds in one image file of that directory with a [.jpg] or
    [.png] extension. *)
Theorem build_database_provenance dataset_path v cls :
  In (v, cls) (build_database dataset_path) ->
  In cls (listdir dataset_path) /\ isdir (path_join dataset_path cls) = true /\
  exists img_file img m,
    In img_file (listdir (path_join dataset_path cls)) /\ image_ext img_file = true /\
    imread (path_join (path_join dataset_path cls) img_file) = Some img /\
    In m (face_app_get img) /\ v = normalize (f_embedding m) /\
    forall g, In g (face_app_get img) -> (f_det_score g <= f_det_score m)%Q.
Proof.
  unfold build_database. intros H. apply in_flat_map in H as (c & Hc & H).
  unfold enroll_class in H. destruct (isdir (path_join dataset_path c)) eqn:Hd; [|destruct H].
  apply in_flat_map in H as (img_file & Hi & H).
  apply enroll_image_row in H as (-> & Hext & img & f & fs & Hr & Hf & ->).
  split; [exact Hc | split; [exact Hd|]].
  exists img_file, img, (py_max_det_score f fs). rewrite Hf.
  repeat split; auto using py_max_det_score_in, py_max_det_score_max.
Qed.

(** C26: When the detector's embeddings are non-zero and of one length [D], the
    database built at startup is a well-formed index of dimension [D]. *)
Theorem load_index_wf dataset_path idx (D : nat) :
  (forall img f, In f (face_app_get img) ->
     List.length (f_embedding f) = D /\ (0 < sqnorm (f_embedding f))%Q) ->
  load_index None dataset_path = Ok idx -> index_wf idx /\ fi_dim idx = D.
Proof.
  intros Hemb H. cbn zeta in H. apply make_index_dims in H as (Hne & Hv & Hl & Hdims).
  assert (Hrow : forall v c, In (v, c) (build_database dataset_path) ->
                   dim v = D /\ (0 < nsq v)%Q /\ (nsq v == sqnorm (nraw v))%Q).
  { intros v c Hin. apply build_database_provenance in Hin
      as (_ & _ & img_file & img & m & _ & _ & _ & Hm & -> & _).
    destruct (Hemb img m Hm). unfold dim. cbn. repeat split; auto. }
  destruct (build_database dataset_path) as [|[v0 c0] rest] eqn:Hdb; [now destruct Hne|].
  assert (HD : fi_dim idx = D).
  { rewrite Forall_forall in Hdims. rewrite <- (Hdims v0) by (left; reflexivity).
    apply (Hrow v0 c0). left. reflexivity. }
  split; [|exact HD]. split.
  - rewrite Hv, HD. apply Forall_forall. intros v Hin. apply in_map_iff in Hin as ([v' c] & <- & Hin).
    apply (Hrow v' c). exact Hin.
  - rewrite Hv, Hl, !length_map. reflexivity.
Qed.

(** With no cache and no usable image the service does not start:
    [np.vstack([])] raises. *)
Lemma load_index_empty dataset_path :
  build_database dataset_path = [] -> load_index None dataset_path = Err ValueError.
Proof. intros H. cbn. rewrite H. reflexivity. Qed.

(** ** The cache *)

(** C27: The files written by a startup that built the database
    load back, at the next startup, as the same index, and that startup
    leaves them as they are, whatever the dataset folder holds then. *)
Theorem startup_cache_roundtrip dataset_path dataset_path' fs idx fs' :
  startup dataset_path fs = (Ok idx, fs') ->
  startup dataset_path' fs' = (Ok idx, fs').
Proof.
  unfold startup. destruct (cache_contents fs) as [[[d rows] labels]|] eqn:Hc.
  - intros H. injection H as Hidx <-. rewrite Hc. cbn. rewrite Hidx. reflexivity.
  - destruct (load_index None dataset_path) as [idx0|e]; intros H; [|discriminate].
    injection H as <- <-.
    destruct idx0 as [d rows labels]. reflexivity.
Qed.

(** C28: Once both cache files exist the dataset folder is never read again:
    a person added to it is not enrolled until the files are deleted. *)
Lemma startup_ignores_dataset dataset_path dataset_path' fs c :
  cache_contents fs = Some c -> startup dataset_path fs = startup dataset_path' fs.
Proof. intros Hc. unfold startup. rewrite Hc. destruct c as [[d rows] labels]. reflexivity. Qed.

(** ** One row per photograph *)

(** A file of a person's folder that yields a row: an image extension, a
    readable image, and at least one detected face. *)
Definition photo_has_face (cls_folder img_file : string) : bool :=
  image_ext img_file &&
  match imread (path_join cls_folder img_file) with
  | Some img => match face_app_get img with [] => false | _ => true end
  | None => false
  end.

Lemma enroll_image_length cls_folder cls img_file :
  List.length (enroll_image cls_folder cls img_file) =
  if photo_has_face cls_folder img_file then 1%nat else 0%nat.
Proof.
  unfold enroll_image, photo_has_face. destruct (image_ext img_file); [|reflexivity].
  destruct (imread _) as [img|]; [|reflexivity]. destruct (face_app_get img); reflexivity.
Qed.

Lemma enroll_class_label dataset_path c v l : In (v, l) (enroll_class dataset_path c) -> l = c.
Proof.
  unfold enroll_class. destruct (isdir _); [|intros []].
  intros H. apply in_flat_map in H as (f & _ & H). apply enroll_image_row in H. apply H.
Qed.

Lemma filter_flat_map {A B} (p : B -> bool) (g : A -> list B) (l : list A) :
  filter p (flat_map g l) = flat_map (fun x => filter p (g x)) l.
Proof. induction l as [|x l IH]; cbn; [reflexivity|]. rewrite filter_app, IH. reflexivity. Qed.

Lemma filter_label (c cls : string) (rows : list (nvec * string)) :
  (forall v l, In (v, l) rows -> l = c) ->
  filter (fun r => String.eqb (snd r) cls) rows = if String.eqb c cls then rows else [].
Proof.
  intros H. induction rows as [|[v l] rows IH]; cbn; [destruct (String.eqb c cls); reflexivity|].
  rewrite (H v l (or_introl eq_refl)), IH by (intros; eapply H; right; eassumption).
  destruct (String.eqb c cls); reflexivity.
Qed.

Lemma flat_map_select_none {B} (g : string -> list B) (cls : string) (l : list string) :
  ~ In cls l -> flat_map (fun c => if String.eqb c cls then g c else []) l = [].
Proof.
  induction l as [|c l IH]; intros H; cbn; [reflexivity|].
  destruct (String.eqb_spec c cls) as [->|_]; [destruct H; left; reflexivity|].
  apply IH. intros Hin. apply H. right. exact Hin.
Qed.

(** Selecting the entry [cls] of a list that holds it once. *)
Lemma flat_map_select {B} (g : string -> list B) (cls : string) (l : list string) :
  NoDup l -> In cls l ->
  flat_map (fun c => if String.eqb c cls then g c else []) l = g cls.
Proof.
  induction l as [|c l IH]; intros Hnd Hin; [destruct Hin|].
  apply NoDup_cons_iff in Hnd as [Hc Hnd]. cbn.
  destruct (String.eqb_spec c cls) as [->|Hne].
  - rewrite flat_map_select_none by exact Hc. apply app_nil_r.
  - destruct Hin as [->|Hin]; [contradiction|]. apply IH; assumption.
Qed.

Lemma enroll_class_length dataset_path cls :
  isdir (path_join dataset_path cls) = true ->
  List.length (enroll_class dataset_path cls) =
  List.length (filter (photo_has_face (path_join dataset_path cls))
                      (listdir (path_join dataset_path cls))).
Proof.
  intros Hd. unfold enroll_class. rewrite Hd.
  induction (listdir (path_join dataset_path cls)) as [|f fs IH]; cbn; [reflexivity|].
  rewrite length_app, IH, enroll_image_length. destruct (photo_has_face _ f); reflexivity.
Qed.

(** C25: one row per photograph, not one per person: when the dataset
    folder lists each entry once and [cls] is one of its directories, the
    database holds exactly as many rows labelled [cls] as [cls]'s folder
    has files with an image extension that [cv2.imread] reads and in
    which the detector finds a face. *)
Theorem enroll_rows_per_photo dataset_path cls :
  NoDup (listdir dataset_path) -> In cls (listdir dataset_path) ->
  isdir (path_join dataset_path cls) = true ->
  List.length (filter (fun r => String.eqb (snd r) cls) (build_database dataset_path)) =
  List.length (filter (photo_has_face (path_join dataset_path cls))
                      (listdir (path_join dataset_path cls))).
Proof.
  intros Hnd Hin Hd. rewrite <- enroll_class_length by exact Hd.
  unfold build_database. rewrite filter_flat_map.
  rewrite (flat_map_ext _ (fun c => if String.eqb c cls then enroll_class dataset_path c else []))
    by (intros c; apply filter_label; apply enroll_class_label).
  rewrite flat_map_select by assumption. reflexivity.
Qed.

End Enroll.

(** ** A dataset with two photographs of one person *)

Definition ex_join (a b : string) : string := (a ++ "/" ++ b)%string.

Definition ex_listdir (p : string) : list string :=
  if String.eqb p "db" then ["A"; "notes.txt"]%string
  else if String.eqb p "db/A" then ["1.JPG"; "2.png"; "readme.md"]%string else [].

Definition ex_isdir (p : string) : bool := String.eqb p "db/A".

(** The first photograph decodes to a frame of height 1, the second to
    one of height 2. *)
Definition ex_imread (p : string) : option Frame :=
  if String.eqb p "db/A/1.JPG" then Some {| fr_height := 1; fr_width := 1; fr_pixels := [] |}
  else if String.eqb p "db/A/2.png" then Some {| fr_height := 2; fr_width := 1; fr_pixels := [] |}
  else None.

Definition ex_face (score : Q) (e : Vec) : DetectedFace :=
  {| f_bbox := {| dx1 := 0; dy1 := 0; dx2 := 1; dy2 := 1 |}; f_embedding := e; f_det_score := score |}.

(** Two faces in the first photograph, one in the second. *)
Definition ex_detect (img : Frame) : list DetectedFace :=
  if Z.eqb (fr_height img) 1 then [ex_face (8 # 10) [1; 0]; ex_face (9 # 10) [3; 4]]
  else [ex_face (9 # 10) [0; 2]].

Definition ex_index : FaceIndex :=
  {| fi_dim := 2; fi_vectors := [normalize [3; 4]; normalize [0; 2]];
     fi_labels := ["A"; "A"]%string |}.

(** [A] has two rows, one per photograph; the text file and the
    non-image file are skipped, and the upper-case extension is accepted. *)
Lemma enroll_rows_per_photo_witness :
  List.length (filter (fun r => String.eqb (snd r) "A")
                 (build_database ex_listdir ex_isdir ex_join ex_imread ex_detect "db")) =
  List.length (filter (photo_has_face ex_join ex_imread ex_detect (ex_join "db" "A"))
                 (ex_listdir (ex_join "db" "A"))).
Proof.
  apply (enroll_rows_per_photo ex_listdir ex_isdir ex_join ex_imread ex_detect "db" "A").
  - apply NoDup_cons; [intros [H|[]]; discriminate | apply NoDup_cons; [intros [] | constructor]].
  - left. reflexivity.
  - reflexivity.
Defined.

Lemma ex_detect_embeddings img f :
  In f (ex_detect img) -> List.length (f_embedding f) = 2%nat /\ 0 < sqnorm (f_embedding f).
Proof.
  unfold ex_detect. destruct (Z.eqb (fr_height img) 1);
    intros Hf; repeat destruct Hf as [<-|Hf]; try destruct Hf; split; reflexivity.
Qed.

Lemma load_index_wf_witness : index_wf ex_index /\ fi_dim ex_index = 2%nat.
Proof.
  apply (load_index_wf ex_listdir ex_isdir ex_join ex_imread ex_detect "db" ex_index 2).
  - exact ex_detect_embeddings.
  - reflexivity.
Defined.

Lemma build_database_provenance_witness :
  In "A"%string (ex_listdir "db") /\ ex_isdir (ex_join "db" "A") = true /\
  exists img_file img m,
    In img_file (ex_listdir (ex_join "db" "A")) /\ image_ext img_file = true /\
    ex_imread (ex_join (ex_join "db" "A") img_file) = Some img /\
    In m (ex_detect img) /\ normalize [0; 2] = normalize (f_embedding m) /\
    forall g, In g (ex_detect img) -> (f_det_score g <= f_det_score m)%Q.
Proof.
  apply (build_database_provenance ex_listdir ex_isdir ex_join ex_imread ex_detect "db").
  vm_compute. right. left. reflexivity.
Defined.

Definition no_cache : CacheFS := {| emb_npy := None; labels_pkl := None |}.

Lemma startup_cache_roundtrip_witness :
  startup ex_listdir ex_isdir ex_join ex_imread ex_detect "elsewhere" (save_cache ex_index) =
  (Ok ex_index, save_cache ex_index).
Proof.
  apply (startup_cache_roundtrip ex_listdir ex_isdir ex_join ex_imread ex_detect "db" "elsewhere"
           no_cache).
  reflexivity.
Defined.

Lemma startup_ignores_dataset_witness :
  startup ex_listdir ex_isdir ex_join ex_imread ex_detect "db" (save_cache ex_index) =
  startup ex_listdir ex_isdir ex_join ex_imread ex_detect "elsewhere" (save_cache ex_index).
Proof.
  apply (startup_ignores_dataset ex_listdir ex_isdir ex_join ex_imread ex_detect "db" "elsewhere"
           (save_cache ex_index) (2%nat, fi_vectors ex_index, fi_labels ex_index)).
  reflexivity.
Defined.
